(** * Stored records of module/config/stored/classes.py

    A shallow embedding of the record layer (StoredBase and its subclasses)
    and the properties of its specification.

    Conventions of the embedding:
    - a Python value is a [pyval]; a Python [dict] is an association list
      that keeps insertion order ([d[k] = v] overwrites in place, or appends);
    - a naive [datetime] is its number of microseconds on the local time line;
    - a Python float is the rational number it denotes;
    - a method is a computation [M A] over the record's state: it returns a
      value or raises, and the state it leaves is kept in both cases;
    - what the module imports from elsewhere (the clock, the ISO parser, the
      quest lookup, the config's flush and batching scope, DEFAULT_TIME) is a
      [Variable] of the enclosing section. *)

From Stdlib Require Import String Ascii ZArith QArith Qround List Bool Lia.
From Stdlib Require Import DecimalString Permutation Lqa.
Import ListNotations.

Open Scope string_scope.
Open Scope Z_scope.

(** ** Exceptions and results *)

Inductive PyExc : Type :=
| AssertionError
| TypeError
| ValueError
| AttributeError
| KeyError
| IndexError
| ScriptError.

Definition PyExc_eqb (a b : PyExc) : bool :=
  match a, b with
  | AssertionError, AssertionError
  | TypeError, TypeError
  | ValueError, ValueError
  | AttributeError, AttributeError
  | KeyError, KeyError
  | IndexError, IndexError
  | ScriptError, ScriptError => true
  | _, _ => false
  end.

Inductive result (A : Type) : Type :=
| Ok (a : A)
| Raise (e : PyExc).

Arguments Ok {A} a.
Arguments Raise {A} e.

(** ** Values *)

(** [datetime]: microseconds on the local time line. *)
Definition datetime : Type := Z.

(** Modelled from the spec: the quest object of tasks.daily.keywords (not in
    src), of which the record layer reads only the [name]. *)
Record DailyQuest : Type := { quest_id : Z; name : string }.

#[local] Set Warnings "-register-all".

Inductive pyval : Type :=
| PyNone
| PyBool (b : bool)
| PyInt (z : Z)
| PyStr (s : string)
| PyDatetime (t : datetime)
| PyQuest (q : DailyQuest)
| PyList (l : list pyval)
| PyDict (d : list (string * pyval))
| PyFunction (qualname : string)
| PyProperty (qualname : string)
| PyCachedProperty (qualname : string)
| PyBuiltin (tyname : string).

#[local] Set Warnings "register-all".

(** [type(value).__name__] *)
Definition type_name (v : pyval) : string :=
  match v with
  | PyNone => "NoneType"
  | PyBool _ => "bool"
  | PyInt _ => "int"
  | PyStr _ => "str"
  | PyDatetime _ => "datetime"
  | PyQuest _ => "DailyQuest"
  | PyList _ => "list"
  | PyDict _ => "dict"
  | PyFunction _ => "function"
  | PyProperty _ => "property"
  | PyCachedProperty _ => "cached_property"
  | PyBuiltin n => n
  end.

(** [isinstance(value, datetime)] *)
Definition isinstance_datetime (value : pyval) : bool :=
  match value with PyDatetime _ => true | _ => false end.

(** [isinstance(value, type(default))]; [bool] is a subclass of [int]. *)
Definition isinstance_type_of (value default : pyval) : bool :=
  match default, value with
  | PyNone, PyNone => true
  | PyBool _, PyBool _ => true
  | PyInt _, PyInt _ => true
  | PyInt _, PyBool _ => true
  | PyStr _, PyStr _ => true
  | PyDatetime _, PyDatetime _ => true
  | PyQuest _, PyQuest _ => true
  | PyList _, PyList _ => true
  | PyDict _, PyDict _ => true
  | PyFunction _, PyFunction _ => true
  | PyProperty _, PyProperty _ => true
  | PyCachedProperty _, PyCachedProperty _ => true
  | PyBuiltin a, PyBuiltin b => String.eqb a b
  | _, _ => false
  end.

(** Truth value of an object, as [not name] tests it. *)
Definition py_bool (v : pyval) : bool :=
  match v with
  | PyNone => false
  | PyBool b => b
  | PyInt z => negb (z =? 0)
  | PyStr s => negb (String.eqb s "")
  | PyList [] => false
  | PyDict [] => false
  | _ => true
  end.

(** [str(int(x))] for an integer [x]. *)
Definition py_str_int (z : Z) : string := NilZero.string_of_int (Z.to_int z).

(** [name.startswith('_')] *)
Definition startswith_underscore (s : string) : bool := String.prefix "_" s.

(** [s.split('.')] *)
Fixpoint split_dot (s : string) : list string :=
  match s with
  | EmptyString => [EmptyString]
  | String c rest =>
      if Ascii.eqb c "."%char then EmptyString :: split_dot rest
      else match split_dot rest with
           | seg :: segs => String c seg :: segs
           | [] => [String c EmptyString]
           end
  end.

(** ** Dictionaries *)

Section Dict.
Context {V : Type}.

(** [d.get(k)] *)
Fixpoint dict_get (d : list (string * V)) (k : string) : option V :=
  match d with
  | [] => None
  | (k', v) :: rest => if String.eqb k k' then Some v else dict_get rest k
  end.

(** [d[k] = v] *)
Fixpoint dict_set (d : list (string * V)) (k : string) (v : V)
  : list (string * V) :=
  match d with
  | [] => [(k, v)]
  | (k', v') :: rest =>
      if String.eqb k k' then (k', v) :: rest
      else (k', v') :: dict_set rest k v
  end.

Definition dict_keys (d : list (string * V)) : list string := map fst d.

(** [k in d] *)
Definition dict_mem (k : string) (d : list (string * V)) : bool :=
  existsb (String.eqb k) (dict_keys d).
End Dict.

Definition dict : Type := list (string * pyval).

(** [quests[i]] on a list *)
Definition py_index (l : list pyval) (i : nat) : result pyval :=
  match nth_error l i with
  | Some v => Ok v
  | None => Raise IndexError
  end.

(** ** Classes

    A class is seen through its method resolution order: the class bodies
    from the most derived one to [object]. *)

Definition namespace : Type := dict.

(** [getattr(cls, attr)]: the first body of the MRO that binds [attr]. *)
Fixpoint py_getattr (mro : list namespace) (attr : string) : option pyval :=
  match mro with
  | [] => None
  | body :: bases =>
      match dict_get body attr with
      | Some v => Some v
      | None => py_getattr bases attr
      end
  end.

Fixpoint insert_name (x : string) (l : list string) : list string :=
  match l with
  | [] => [x]
  | y :: rest => if String.leb x y then x :: l else y :: insert_name x rest
  end.

Definition sort_names (l : list string) : list string :=
  fold_right insert_name [] l.

(** [dir(cls)]: the names bound along the MRO, each once, sorted. *)
Definition py_dir (mro : list namespace) : list string :=
  sort_names (nodup string_dec (flat_map dict_keys mro)).

Inductive StoredClass : Type :=
| StoredBase
| StoredExpiredAt0400
| StoredInt
| StoredCounter
| StoredDailyActivity
| StoredDaily
| StoredDungeonDouble.

(** The names every class inherits from [object] and from [type]'s class
    creation; all of them are dunder names. *)
Definition object_body : namespace :=
  map (fun n => (n, PyBuiltin "wrapper_descriptor"))
    ["__class__"; "__delattr__"; "__dict__"; "__dir__"; "__doc__"; "__eq__";
     "__format__"; "__ge__"; "__getattribute__"; "__gt__"; "__hash__";
     "__init__"; "__init_subclass__"; "__le__"; "__lt__"; "__module__";
     "__ne__"; "__new__"; "__reduce__"; "__reduce_ex__"; "__repr__";
     "__setattr__"; "__sizeof__"; "__str__"; "__subclasshook__";
     "__weakref__"].

(** ** The config collaborator and the record's state *)

(** What [config.modified[key]] refers to: the record's own snapshot object
    (the assignment in [__setattr__] stores the object, not a copy), or a
    value put there by someone else. *)
Inductive ref : Type :=
| Snapshot
| Other (v : pyval).

(** The attributes of the config object that the record layer touches. *)
Record Config : Type := {
  data : pyval;
  modified : list (string * ref);
  auto_update : bool
}.

(** What the record layer emits: [logger.warning] lines of hydration and the
    [update()] requests of [__setattr__]. *)
Inductive Event : Type :=
| Warning (record_name attr : string) (value default : pyval)
| Update.

(** A record instance together with the objects it reaches. [_key] and
    [_config] are the instance attributes that [__init__] and [_bind] write;
    the config object is reached through the record only, so the reference
    is modelled by the object itself. [_stored_cache] is the entry [_stored]
    of the instance dictionary, where [functools.cached_property] keeps the
    snapshot; [__dict__] holds the instance attributes assigned otherwise;
    [ticks] counts the clock readings made so far. *)
Record State : Type := {
  __class__ : StoredClass;
  _key : string;
  _config : option Config;
  _stored_cache : option dict;
  __dict__ : dict;
  ticks : nat;
  log : list Event
}.

Definition set_config (s : State) (c : Config) : State :=
  {| __class__ := __class__ s; _key := _key s; _config := Some c;
     _stored_cache := _stored_cache s; __dict__ := __dict__ s;
     ticks := ticks s; log := log s |}.

Definition set_cache (s : State) (d : dict) : State :=
  {| __class__ := __class__ s; _key := _key s; _config := _config s;
     _stored_cache := Some d; __dict__ := __dict__ s;
     ticks := ticks s; log := log s |}.

Definition set_dict (s : State) (d : dict) : State :=
  {| __class__ := __class__ s; _key := _key s; _config := _config s;
     _stored_cache := _stored_cache s; __dict__ := d;
     ticks := ticks s; log := log s |}.

Definition tick (s : State) : State :=
  {| __class__ := __class__ s; _key := _key s; _config := _config s;
     _stored_cache := _stored_cache s; __dict__ := __dict__ s;
     ticks := S (ticks s); log := log s |}.

Definition emit (s : State) (e : Event) : State :=
  {| __class__ := __class__ s; _key := _key s; _config := _config s;
     _stored_cache := _stored_cache s; __dict__ := __dict__ s;
     ticks := ticks s; log := log s ++ [e] |}.

(** ** Computations that may raise *)

Definition M (A : Type) : Type := State -> result A * State.

Definition ret {A : Type} (a : A) : M A := fun s => (Ok a, s).

Definition raise {A : Type} (e : PyExc) : M A := fun s => (Raise e, s).

Definition bind {A B : Type} (m : M A) (k : A -> M B) : M B :=
  fun s =>
    match m s with
    | (Ok a, s') => k a s'
    | (Raise e, s') => (Raise e, s')
    end.

(** [try: m  except e: handler] *)
Definition try_except {A : Type} (m : M A) (e : PyExc) (handler : M A) : M A :=
  fun s =>
    match m s with
    | (Raise e', s') => if PyExc_eqb e e' then handler s' else (Raise e', s')
    | r => r
    end.

Declare Scope py_scope.
Delimit Scope py_scope with py.
Notation "x <- m ;; k" := (bind m (fun x => k))
  (at level 61, m at next level, right associativity) : py_scope.
Notation "m ;; k" := (bind m (fun _ => k))
  (at level 61, right associativity) : py_scope.
Open Scope py_scope.

(** Modelled from the spec: deep_get of module.config.utils (not in src), the
    read-only dotted-path lookup into the nested tree that returns the
    default when a path segment is absent. *)
Fixpoint deep_get_keys (d : pyval) (keys : list string) (default : pyval)
  : pyval :=
  match keys with
  | [] => d
  | k :: rest =>
      match d with
      | PyDict m =>
          match dict_get m k with
          | Some v => deep_get_keys v rest default
          | None => default
          end
      | _ => default
      end
  end.

Definition deep_get (d : pyval) (keys : string) (default : pyval) : pyval :=
  deep_get_keys d (split_dot keys) default.

(** [t.replace(microsecond=0)] *)
Definition replace_microsecond_0 (t : datetime) : datetime :=
  t - t mod 1000000.

(** [t.timestamp()], in seconds *)
Definition timestamp (t : datetime) : Q := Qmake t 1000000.

(** ** The constructor and the binding *)

(** [StoredBase(key)] for an instance of class [c]. *)
Definition __init__ (c : StoredClass) (key : string) : State :=
  {| __class__ := c; _key := key; _config := None; _stored_cache := None;
     __dict__ := []; ticks := 0; log := [] |}.

Definition _name (s : State) : string := last (split_dot (_key s)) "".

Definition _bind (config : Config) (s : State) : State := set_config s config.

(** ** Examples of persisted trees and collaborators *)

(** A config whose node at [Daily.Quest] holds the integer 5 under [time]. *)
Definition corrupt_time_config : Config :=
  {| data := PyDict [("Daily", PyDict [("Quest", PyDict [("time", PyInt 5)])])];
     modified := [];
     auto_update := true |}.

(** 2020-01-01 00:00:00 for DEFAULT_TIME. *)
Definition example_DEFAULT_TIME : datetime := 1577836800000000.

(** A clock that advances by a second at each reading, from
    2023-11-14 22:15:00.123456. *)
Definition example_datetime_now (n : nat) : datetime :=
  1700000100123456 + 1000000 * Z.of_nat n.

(** [time.time()] stopped a minute before 2023-11-14 22:13:20. *)
Definition example_time_time (n : nat) : Q := 1699999940 # 1.

(** A parser that knows one instant. *)
Definition example_fromisoformat (text : string) : option datetime :=
  if String.eqb text "2023-11-14 22:13:20" then Some 1700000000000000
  else None.

Definition Quest_A : DailyQuest := {| quest_id := 1; name := "Quest_A" |}.
Definition Quest_B : DailyQuest := {| quest_id := 2; name := "Quest_B" |}.

(** A lookup that knows two quests by name. *)
Definition example_find (name : pyval) : option DailyQuest :=
  match name with
  | PyStr text =>
      if String.eqb text "Quest_A" then Some Quest_A
      else if String.eqb text "Quest_B" then Some Quest_B
      else None
  | _ => None
  end.

(** A flush that only empties the pending map. *)
Definition example_update (snapshot : option dict) (config : Config) : Config :=
  {| data := data config; modified := []; auto_update := auto_update config |}.

(** Modelled from the spec: the batching scope [multi_set] of the config
    collaborator (module.config.config is not in src). Entering suspends the
    flush on every set; the scope that suspended it is the outermost one,
    and its exit flushes once and resumes. *)
Definition example_multi_set_enter (config : Config) : bool * Config :=
  (auto_update config,
   {| data := data config; modified := modified config;
      auto_update := false |}).

Definition example_multi_set_exit (outermost : bool) (snapshot : option dict)
  (config : Config) : Config :=
  if outermost then
    let flushed := example_update snapshot config in
    {| data := data flushed; modified := modified flushed;
       auto_update := true |}
  else config.

(** A tree with a node for an integer record, an empty node for the daily
    quests, and a node for the daily activity whose [total] is not 500. *)
Definition example_tree : pyval :=
  PyDict
    [("Int",
      PyDict [("Value",
               PyDict [("time", PyStr "2023-11-14 22:13:20");
                       ("value", PyInt 3)])]);
     ("Daily",
      PyDict [("Quest", PyDict []);
              ("Activity",
               PyDict [("time", PyStr "2023-11-14 22:13:20");
                       ("current", PyInt 120);
                       ("total", PyInt 9999)])])].

Definition example_config : Config :=
  {| data := example_tree; modified := []; auto_update := true |}.

Definition example_int : State :=
  _bind example_config (__init__ StoredInt "Int.Value").

Definition example_daily : State :=
  _bind example_config (__init__ StoredDaily "Daily.Quest").

Definition example_activity : State :=
  _bind example_config (__init__ StoredDailyActivity "Daily.Activity").

(** A counter whose node is missing from the tree. *)
Definition example_counter : State :=
  _bind example_config (__init__ StoredCounter "Counter.Value").

(** An integer record bound to a config that does not flush on its own and
    has a value pending under another key. *)
Definition example_pending_config : Config :=
  {| data := example_tree;
     modified := [("Other.Key", Other (PyInt 1))];
     auto_update := false |}.

Definition example_pending_int : State :=
  _bind example_pending_config (__init__ StoredInt "Int.Value").

(** A config whose node at [Int.Value] is a snapshot as hydration makes it. *)
Definition example_snapshot_config : Config :=
  {| data :=
       PyDict
         [("Int",
           PyDict [("Value",
                    PyDict [("time", PyDatetime 1700000000000000);
                            ("value", PyInt 3)])])];
     modified := [];
     auto_update := false |}.

(** [time.time()] stopped at 2023-11-14 22:16:40. *)
Definition example_late_time_time (n : nat) : Q := 1700000200 # 1.

(** The operators on the values of a counter: integers, and nothing else. *)
Definition example_py_ge (a b : pyval) : result bool :=
  match a, b with
  | PyInt x, PyInt y => Ok (y <=? x)
  | _, _ => Raise TypeError
  end.

Definition example_py_sub (a b : pyval) : result pyval :=
  match a, b with
  | PyInt x, PyInt y => Ok (PyInt (x - y))
  | _, _ => Raise TypeError
  end.

Definition example_py_format (a : pyval) : string :=
  match a with
  | PyInt x => py_str_int x
  | _ => "?"
  end.

(** A boundary at 2023-11-14 22:14:00, whatever the clock reads. *)
Definition example_get_server_last_update (trigger : string) (n : nat)
  : datetime :=
  1700000040000000.


(** Propositional steps that leave the collaborators out of the proof. *)
Ltac forget_data :=
  repeat match goal with
         | x : ?T |- _ =>
             lazymatch type of T with
             | Prop => fail
             | _ => clear x
             end
         end.

Ltac logic := forget_data; tauto.

Ltac logic_with tac := forget_data; intuition tac.

Section Records.

#[local] Set Default Proof Using "Type".

(** DEFAULT_TIME of module.config.utils, the "never" instant. *)
Variable DEFAULT_TIME : datetime.

(** The body of each class statement, in source order. *)
Definition class_body (c : StoredClass) : namespace :=
  match c with
  | StoredBase =>
      [("time", PyDatetime DEFAULT_TIME);
       ("__init__", PyFunction "StoredBase.__init__");
       ("_name", PyCachedProperty "StoredBase._name");
       ("_bind", PyFunction "StoredBase._bind");
       ("_stored", PyCachedProperty "StoredBase._stored");
       ("_attrs", PyCachedProperty "StoredBase._attrs");
       ("__setattr__", PyFunction "StoredBase.__setattr__");
       ("__getattribute__", PyFunction "StoredBase.__getattribute__");
       ("is_expired", PyFunction "StoredBase.is_expired");
       ("show", PyFunction "StoredBase.show");
       ("dashboard", PyFunction "StoredBase.dashboard");
       ("readable_time", PyFunction "StoredBase.readable_time")]
  | StoredExpiredAt0400 =>
      [("is_expired", PyFunction "StoredExpiredAt0400.is_expired")]
  | StoredInt =>
      [("value", PyInt 0)]
  | StoredCounter =>
      [("current", PyInt 0);
       ("total", PyInt 0);
       ("set", PyFunction "StoredCounter.set");
       ("to_counter", PyFunction "StoredCounter.to_counter");
       ("is_full", PyFunction "StoredCounter.is_full");
       ("get_remain", PyFunction "StoredCounter.get_remain")]
  | StoredDailyActivity =>
      [("set", PyFunction "StoredDailyActivity.set");
       ("_stored", PyProperty "StoredDailyActivity._stored")]
  | StoredDaily =>
      [("quest1", PyStr "");
       ("quest2", PyStr "");
       ("quest3", PyStr "");
       ("quest4", PyStr "");
       ("quest5", PyStr "");
       ("quest6", PyStr "");
       ("load_quests", PyFunction "StoredDaily.load_quests");
       ("write_quests", PyFunction "StoredDaily.write_quests")]
  | StoredDungeonDouble =>
      [("calyx", PyInt 0);
       ("relic", PyInt 0)]
  end.

(** The linearisation of each class statement's bases. *)
Definition bases_mro (c : StoredClass) : list StoredClass :=
  match c with
  | StoredBase => [StoredBase]
  | StoredExpiredAt0400 => [StoredExpiredAt0400; StoredBase]
  | StoredInt => [StoredInt; StoredBase]
  | StoredCounter => [StoredCounter; StoredBase]
  | StoredDailyActivity =>
      [StoredDailyActivity; StoredCounter; StoredExpiredAt0400; StoredBase]
  | StoredDaily => [StoredDaily; StoredExpiredAt0400; StoredBase]
  | StoredDungeonDouble =>
      [StoredDungeonDouble; StoredExpiredAt0400; StoredBase]
  end.

Definition class_mro (c : StoredClass) : list namespace :=
  map class_body (bases_mro c) ++ [object_body].

(** *** iter_attribute *)

Definition is_function_or_property (value : pyval) : bool :=
  existsb (String.eqb (type_name value)) ["function"; "property"].

(** The pairs [iter_attribute(cls)] yields, in the order of [dir(cls)]. *)
Definition iter_attribute (mro : list namespace) : list (string * pyval) :=
  flat_map
    (fun attr =>
       if startswith_underscore attr then []
       else match py_getattr mro attr with
            | Some value =>
                if is_function_or_property value then [] else [(attr, value)]
            | None => []
            end)
    (py_dir mro).

(** The body of [StoredBase._attrs] for a class given by its MRO. *)
Definition derive_attrs (mro : list namespace) : dict :=
  fold_left (fun attrs av => dict_set attrs (fst av) (snd av))
    (iter_attribute mro)
    [("time", PyDatetime DEFAULT_TIME)].


(** *** Collaborators *)

(** [datetime.now()] and [time.time()] at the n-th clock reading. *)
Variable datetime_now : nat -> datetime.
Variable time_time : nat -> Q.

(** [datetime.fromisoformat] on a string; [None] is its ValueError. *)
Variable fromisoformat : string -> option datetime.

(** [DailyQuest.find]; [None] is its ScriptError. *)
Variable DailyQuest_find : pyval -> option DailyQuest.

(** [config.update()]: the flush, which sees the pending snapshot. *)
Variable update : option dict -> Config -> Config.

(** [config.multi_set()]: the scope object and its enter and exit. *)
Variable wrapper : Type.
Variable multi_set_enter : Config -> wrapper * Config.
Variable multi_set_exit : wrapper -> option dict -> Config -> Config.

(** *** StoredBase *)

Definition _attrs (s : State) : dict := derive_attrs (class_mro (__class__ s)).

Definition logger_warning (attr : string) (value default : pyval) : M unit :=
  fun s => (Ok tt, emit s (Warning (_name s) attr value default)).

(** [stored.get(attr, default)] *)
Definition stored_get (stored : pyval) (attr : string) (default : pyval)
  : M pyval :=
  match stored with
  | PyDict m =>
      ret (match dict_get m attr with Some v => v | None => default end)
  | _ => raise AttributeError
  end.

(** [datetime.fromisoformat(value)]: a TypeError unless [value] is a str. *)
Definition py_fromisoformat (value : pyval) : M pyval :=
  match value with
  | PyStr text =>
      match fromisoformat text with
      | Some t => ret (PyDatetime t)
      | None => raise ValueError
      end
  | _ => raise TypeError
  end.

(** The body of the hydration loop for one attribute. *)
Definition validate (attr : string) (default value : pyval) : M pyval :=
  if String.eqb attr "time" then
    if negb (isinstance_datetime value) then
      try_except (py_fromisoformat value) ValueError
        (logger_warning attr value default ;; ret default)
    else ret value
  else
    if negb (isinstance_type_of value default) then
      logger_warning attr value default ;; ret default
    else ret value.

Fixpoint hydrate_loop (stored : pyval) (items : list (string * pyval))
  (out : dict) : M dict :=
  match items with
  | [] => ret out
  | (attr, default) :: rest =>
      value <- stored_get stored attr default ;;
      value <- validate attr default value ;;
      hydrate_loop stored rest (dict_set out attr value)
  end.

(** The function wrapped by the cached property [StoredBase._stored]. *)
Definition hydrate : M dict :=
  fun s =>
    match _config s with
    | None => (Raise AssertionError, s)
    | Some config =>
        hydrate_loop (deep_get (data config) (_key s) (PyDict []))
          (_attrs s) [] s
    end.

(** [functools.cached_property]: computed once, then read from the
    instance dictionary. *)
Definition StoredBase__stored : M dict :=
  fun s =>
    match _stored_cache s with
    | Some d => (Ok d, s)
    | None =>
        match hydrate s with
        | (Ok d, s') => (Ok d, set_cache s' d)
        | (Raise e, s') => (Raise e, s')
        end
    end.

(** An item assignment on the snapshot object is a write to the cache. *)
Definition write_stored (d : dict) : M unit :=
  fun s => (Ok tt, set_cache s d).

(** The property [StoredDailyActivity._stored]. *)
Definition StoredDailyActivity__stored : M dict :=
  stored <- StoredBase__stored ;;
  let stored := dict_set stored "total" (PyInt 500) in
  write_stored stored ;;
  ret stored.

(** [self._stored]: only StoredDailyActivity overrides the base property. *)
Definition _stored : M dict :=
  fun s =>
    match __class__ s with
    | StoredDailyActivity => StoredDailyActivity__stored s
    | _ => StoredBase__stored s
    end.

Definition now : M datetime :=
  fun s => (Ok (replace_microsecond_0 (datetime_now (ticks s))), tick s).

(** [self._config.modified[self._key] = stored] *)
Definition register_modified : M unit :=
  fun s =>
    match _config s with
    | None => (Raise AttributeError, s)
    | Some config =>
        (Ok tt,
         set_config s
           {| data := data config;
              modified := dict_set (modified config) (_key s) Snapshot;
              auto_update := auto_update config |})
    end.

(** [if self._config.auto_update: self._config.update()] *)
Definition update_if_auto : M unit :=
  fun s =>
    match _config s with
    | None => (Raise AttributeError, s)
    | Some config =>
        if auto_update config
        then (Ok tt,
              emit (set_config s (update (_stored_cache s) config)) Update)
        else (Ok tt, s)
    end.

Definition __setattr__ (key : string) (value : pyval) : M unit :=
  fun s =>
    if dict_mem key (_attrs s) then
      (stored <- _stored ;;
       t <- now ;;
       let stored := dict_set stored "time" (PyDatetime t) in
       let stored := dict_set stored key value in
       write_stored stored ;;
       register_modified ;;
       update_if_auto) s
    else
      (Ok tt, set_dict s (dict_set (__dict__ s) key value)).

(** [object.__getattribute__] for the names the snapshot does not hold:
    the instance dictionary, then the class. *)
Definition object_getattribute (item : string) : M pyval :=
  fun s =>
    match dict_get (__dict__ s) item with
    | Some v => (Ok v, s)
    | None =>
        match py_getattr (class_mro (__class__ s)) item with
        | Some v => (Ok v, s)
        | None => (Raise AttributeError, s)
        end
    end.

(** [stored[item]] *)
Definition py_getitem (stored : dict) (item : string) : M pyval :=
  match dict_get stored item with
  | Some v => ret v
  | None => raise KeyError
  end.

Definition __getattribute__ (item : string) : M pyval :=
  fun s =>
    if negb (startswith_underscore item) && dict_mem item (_attrs s) then
      (stored <- _stored ;; py_getitem stored item) s
    else object_getattribute item s.

(** [value.timestamp()]: only a datetime has the method. *)
Definition py_timestamp (value : pyval) : M Q :=
  match value with
  | PyDatetime t => ret (timestamp t)
  | _ => raise AttributeError
  end.

Definition read_time_time : M Q :=
  fun s => (Ok (time_time (ticks s)), tick s).

Definition readable_time : M (string * string) :=
  t <- __getattribute__ "time" ;;
  stamp <- py_timestamp t ;;
  clock <- read_time_time ;;
  let diff := (stamp - clock)%Q in
  if Qlt_le_dec diff (-1 # 1) then ret ("", "TimeError")
  else if Qlt_le_dec diff (60 # 1) then ret ("", "JustNow")
  else if Qlt_le_dec diff (3600 # 1) then
    ret (py_str_int (Qfloor (diff / (60 # 1))), "MinutesAgo")
  else if Qlt_le_dec diff (86400 # 1) then
    ret (py_str_int (Qfloor (diff / (86400 # 1))), "HoursAgo")
  else if Qlt_le_dec diff (129600 # 1) then
    ret (py_str_int (Qfloor (diff / (129600 # 1))), "DaysAgo")
  else ret ("", "LongTimeAgo").

(** [with self._config.multi_set(): body]; the exit runs whether the body
    returns or raises. *)
Definition with_multi_set {A : Type} (body : M A) : M A :=
  fun s =>
    match _config s with
    | None => (Raise AttributeError, s)
    | Some config =>
        let (w, config1) := multi_set_enter config in
        let (r, s') := body (set_config s config1) in
        match _config s' with
        | Some config2 =>
            (r, set_config s' (multi_set_exit w (_stored_cache s') config2))
        | None => (r, s')
        end
    end.

(** *** StoredCounter and StoredDailyActivity *)

Definition StoredCounter_set (current total : pyval) : M unit :=
  with_multi_set
    (__setattr__ "current" current ;;
     __setattr__ "total" total).

Definition StoredDailyActivity_set (current : pyval) : M unit :=
  StoredCounter_set current (PyInt 500).

(** *** StoredDaily *)

(** One turn of the loop of [load_quests]. *)
Definition load_quest (quests : list DailyQuest) (name : pyval)
  : list DailyQuest :=
  if negb (py_bool name) then quests
  else match DailyQuest_find name with
       | Some quest => quests ++ [quest]
       | None => quests
       end.

Definition load_quests : M (list DailyQuest) :=
  quest1 <- __getattribute__ "quest1" ;;
  quest2 <- __getattribute__ "quest2" ;;
  quest3 <- __getattribute__ "quest3" ;;
  quest4 <- __getattribute__ "quest4" ;;
  quest5 <- __getattribute__ "quest5" ;;
  quest6 <- __getattribute__ "quest6" ;;
  ret (fold_left load_quest
         [quest1; quest2; quest3; quest4; quest5; quest6] []).

(** [q.name if isinstance(q, DailyQuest) else q] *)
Definition quest_name (q : pyval) : pyval :=
  match q with
  | PyQuest quest => PyStr (name quest)
  | _ => q
  end.

(** [try: self.questN = quests[i]  except IndexError: self.questN = ''] *)
Definition write_slot (slot : string) (quests : list pyval) (i : nat)
  : M unit :=
  try_except
    (fun s =>
       match py_index quests i with
       | Ok v => __setattr__ slot v s
       | Raise e => (Raise e, s)
       end)
    IndexError
    (__setattr__ slot (PyStr "")).

Definition write_quests (quests : list pyval) : M unit :=
  let quests := map quest_name quests in
  with_multi_set
    (write_slot "quest1" quests 0 ;;
     write_slot "quest2" quests 1 ;;
     write_slot "quest3" quests 2 ;;
     write_slot "quest4" quests 3 ;;
     write_slot "quest5" quests 4 ;;
     write_slot "quest6" quests 5).

(** *** The helpers of StoredCounter *)

(** The operators of the language that the helpers apply to attribute
    values: [a >= b], [a - b] and the text of [a] in an f-string. *)
Variable py_ge : pyval -> pyval -> result bool.
Variable py_sub : pyval -> pyval -> result pyval.
Variable py_format : pyval -> string.

(** The outcome of an operator, as a step of a method. *)
Definition lift {A : Type} (r : result A) : M A := fun s => (r, s).

Definition to_counter : M string :=
  current <- __getattribute__ "current" ;;
  total <- __getattribute__ "total" ;;
  ret (py_format current ++ "/" ++ py_format total)%string.

Definition is_full : M bool :=
  current <- __getattribute__ "current" ;;
  total <- __getattribute__ "total" ;;
  lift (py_ge current total).

Definition get_remain : M pyval :=
  total <- __getattribute__ "total" ;;
  current <- __getattribute__ "current" ;;
  lift (py_sub total current).

(** *** show and is_expired *)

(** A line handed to [logger.attr]: a name and a value. *)
Definition Line : Type := (string * pyval)%type.

(** A method that also writes [logger.attr] lines. *)
Definition logged (A : Type) : Type := State -> result A * State * list Line.

Definition show : logged unit :=
  fun s =>
    match _stored s with
    | (Ok stored, s') => (Ok tt, s', [(_name s, PyDict stored)])
    | (Raise e, s') => (Raise e, s', [])
    end.

(** [get_server_last_update] of module.config.utils, a function of the
    clock: its answer at the n-th clock reading. *)
Variable get_server_last_update : string -> nat -> datetime.

(** [value < boundary] for a datetime [boundary]: no other value of [pyval]
    is ordered against a datetime. *)
Definition py_lt_datetime (value : pyval) (boundary : datetime) : result bool :=
  match value with
  | PyDatetime t => Ok (t <? boundary)
  | _ => Raise TypeError
  end.

Definition StoredBase_is_expired : logged bool :=
  fun s => (Ok false, s, []).

Definition StoredExpiredAt0400_is_expired : logged bool :=
  fun s =>
    match show s with
    | (Ok _, s1, lines) =>
        match __getattribute__ "time" s1 with
        | (Ok t, s2) =>
            let boundary := get_server_last_update "04:00" (ticks s2) in
            let s3 := tick s2 in
            match py_lt_datetime t boundary with
            | Ok expired =>
                (Ok expired, s3,
                 (lines ++ [((_name s ++ " expired")%string, PyBool expired)])
                 %list)
            | Raise e => (Raise e, s3, lines)
            end
        | (Raise e, s2) => (Raise e, s2, lines)
        end
    | (Raise e, s1, lines) => (Raise e, s1, lines)
    end.

(** [self.is_expired()]: the method that the class of the record resolves
    to along its MRO. *)
Definition is_expired : logged bool :=
  fun s =>
    match py_getattr (class_mro (__class__ s)) "is_expired" with
    | Some (PyFunction qualname) =>
        if String.eqb qualname "StoredExpiredAt0400.is_expired"
        then StoredExpiredAt0400_is_expired s
        else StoredBase_is_expired s
    | _ => StoredBase_is_expired s
    end.

(** *** What hydration makes of a mapping *)

(** [stored.get(attr, default)] over the mapping [m]. *)
Definition raw_value (m : dict) (item : string * pyval) : pyval :=
  match dict_get m (fst item) with
  | Some v => v
  | None => snd item
  end.

(** Whether the raw value of a schema entry is replaced by the default. *)
Definition degraded (m : dict) (item : string * pyval) : bool :=
  if String.eqb (fst item) "time" then
    match raw_value m item with
    | PyStr text =>
        match fromisoformat text with Some _ => false | None => true end
    | _ => false
    end
  else negb (isinstance_type_of (raw_value m item) (snd item)).

(** The value kept for a schema entry. *)
Definition hydrated (m : dict) (item : string * pyval) : pyval :=
  if String.eqb (fst item) "time" then
    match raw_value m item with
    | PyStr text =>
        match fromisoformat text with
        | Some t => PyDatetime t
        | None => snd item
        end
    | raw => raw
    end
  else if isinstance_type_of (raw_value m item) (snd item)
       then raw_value m item
       else snd item.

(** The warning logged for a schema entry that is replaced. *)
Definition warning_of (s : State) (m : dict) (item : string * pyval) : Event :=
  Warning (_name s) (fst item) (raw_value m item) (snd item).

(** The snapshot that the first read of a bound record makes of a mapping. *)
Definition hydrated_snapshot (s : State) (m : dict) : dict :=
  let snapshot := map (fun item => (fst item, hydrated m item)) (_attrs s) in
  match __class__ s with
  | StoredDailyActivity => dict_set snapshot "total" (PyInt 500)
  | _ => snapshot
  end.


(** A [time] that hydration can read: a datetime or a string. *)
Definition readable_raw_time (m : dict) : Prop :=
  forall v, dict_get m "time" = Some v ->
            isinstance_datetime v = true \/ exists text, v = PyStr text.

Definition is_warning (e : Event) : Prop :=
  match e with Warning _ _ _ _ => True | Update => False end.


(** A step that leaves the config, the clock and the instance attributes
    alone and logs nothing but warnings. *)
Definition quiet (s s' : State) : Prop :=
  _config s' = _config s /\
  ticks s' = ticks s /\
  __dict__ s' = __dict__ s /\
  exists warnings,
    log s' = (log s ++ warnings)%list /\ Forall is_warning warnings.

Definition read_only {A : Type} (m : M A) : Prop :=
  forall s, quiet s (snd (m s)).


(** *** Record states *)

(** The states a record goes through: from a starting state, any sequence
    of the operations above; a bare read of the snapshot is what [show] and
    the helpers of the subclasses do. *)
Inductive reachable_from (s0 : State) : State -> Prop :=
| reach_start : reachable_from s0 s0
| reach_bind config s :
    reachable_from s0 s -> reachable_from s0 (_bind config s)
| reach_stored s :
    reachable_from s0 s -> reachable_from s0 (snd (_stored s))
| reach_getattribute item s :
    reachable_from s0 s -> reachable_from s0 (snd (__getattribute__ item s))
| reach_setattr key value s :
    reachable_from s0 s -> reachable_from s0 (snd (__setattr__ key value s))
| reach_readable_time s :
    reachable_from s0 s -> reachable_from s0 (snd (readable_time s))
| reach_counter_set current total s :
    reachable_from s0 s ->
    reachable_from s0 (snd (StoredCounter_set current total s))
| reach_activity_set current s :
    reachable_from s0 s ->
    reachable_from s0 (snd (StoredDailyActivity_set current s))
| reach_load_quests s :
    reachable_from s0 s -> reachable_from s0 (snd (load_quests s))
| reach_write_quests quests s :
    reachable_from s0 s -> reachable_from s0 (snd (write_quests quests s)).

(** A record: what a constructor call can become. *)
Definition reachable (s : State) : Prop :=
  exists c key, reachable_from (__init__ c key) s.

(** The snapshot, once it exists, has the keys of the schema, and it only
    exists on a bound record. *)
Definition inv (s : State) : Prop :=
  forall d, _stored_cache s = Some d ->
            dict_keys d = dict_keys (_attrs s) /\ _config s <> None.

(** What no operation changes or undoes. *)
Definition step_ok (s s' : State) : Prop :=
  __class__ s' = __class__ s /\
  _key s' = _key s /\
  (_config s <> None -> _config s' <> None) /\
  (inv s -> inv s').

Definition stable {A : Type} (m : M A) : Prop :=
  forall s, step_ok s (snd (m s)).

(** The config once [__setattr__] has registered the snapshot. *)
Definition pending (config : Config) (key : string) : Config :=
  {| data := data config;
     modified := dict_set (modified config) key Snapshot;
     auto_update := auto_update config |}.

(** The state [__setattr__] leaves, from the state [s1] in which the
    snapshot was read, once the snapshot has become [stored]. *)
Definition after_set (s1 : State) (config : Config) (stored : dict) : State :=
  let s2 := set_config (set_cache (tick s1) stored)
              (pending config (_key s1)) in
  if auto_update config
  then emit (set_config s2 (update (Some stored) (pending config (_key s1))))
         Update
  else s2.


(** The six slots of StoredDaily. *)
Definition quest_slots : list string :=
  ["quest1"; "quest2"; "quest3"; "quest4"; "quest5"; "quest6"].

(** What [DailyQuest.find] makes of a slot: nothing for an empty or an
    unknown name. *)
Definition resolve_slot (name : pyval) : list DailyQuest :=
  if py_bool name then
    match DailyQuest_find name with
    | Some quest => [quest]
    | None => []
    end
  else [].

(** Whether [iter_attribute] yields the name. *)
Definition yielded (mro : list namespace) (attr : string) : bool :=
  negb (startswith_underscore attr) &&
  match py_getattr mro attr with
  | Some value => negb (is_function_or_property value)
  | None => false
  end.

(** The pairs whose name is not [time]. *)
Definition not_time (av : string * pyval) : bool :=
  negb (String.eqb (fst av) "time").

(** Hydration only writes to the log. *)
Definition log_only (s s' : State) : Prop :=
  __class__ s' = __class__ s /\ _key s' = _key s /\
  _config s' = _config s /\ _stored_cache s' = _stored_cache s /\
  __dict__ s' = __dict__ s /\ ticks s' = ticks s.

(** What reading the snapshot leaves alone. *)
Definition frame (s s' : State) : Prop :=
  __class__ s' = __class__ s /\ _key s' = _key s /\
  _config s' = _config s /\ __dict__ s' = __dict__ s /\
  ticks s' = ticks s.

(** The snapshot [__setattr__] leaves, from the snapshot it read. *)
Definition stamped (s : State) (d : dict) (key : string) (value : pyval)
  : dict :=
  dict_set
    (dict_set d "time"
       (PyDatetime (replace_microsecond_0 (datetime_now (ticks s)))))
    key value.

(** The batching scope leaves the tree alone. *)
Hypothesis multi_set_enter_data :
  forall config, data (snd (multi_set_enter config)) = data config.

(** On integers the operators are the comparison, the difference and the
    decimal text. *)
Hypothesis py_ge_int :
  forall a b, py_ge (PyInt a) (PyInt b) = Ok (b <=? a).
Hypothesis py_sub_int :
  forall a b, py_sub (PyInt a) (PyInt b) = Ok (PyInt (a - b)).
Hypothesis py_format_int :
  forall a, py_format (PyInt a) = py_str_int a.


(** * Properties *)

(** ** Dictionaries *)

Lemma dict_get_set_same {V : Type} (d : list (string * V)) k v :
  dict_get (dict_set d k v) k = Some v.
Proof.
  induction d as [|[k' v'] d IH]; simpl.
  - now rewrite String.eqb_refl.
  - destruct (String.eqb k k') eqn:E; simpl; rewrite E; auto.
Qed.

Lemma dict_get_set_other {V : Type} (d : list (string * V)) k k' v :
  String.eqb k' k = false ->
  dict_get (dict_set d k v) k' = dict_get d k'.
Proof.
  intros Hne. induction d as [|[k0 v0] d IH]; simpl.
  - now rewrite Hne.
  - destruct (String.eqb k k0) eqn:E; simpl.
    + apply String.eqb_eq in E. subst k0. now rewrite Hne.
    + now rewrite IH.
Qed.

Lemma dict_mem_In {V : Type} (d : list (string * V)) k :
  dict_mem k d = true <-> In k (dict_keys d).
Proof.
  unfold dict_mem. rewrite existsb_exists. split.
  - intros [x [Hin Heq]]. apply String.eqb_eq in Heq. now subst.
  - intros Hin. exists k. split; [assumption | apply String.eqb_refl].
Qed.

Lemma dict_get_None {V : Type} (d : list (string * V)) k :
  dict_get d k = None <-> ~ In k (dict_keys d).
Proof.
  induction d as [|[k' v'] d IH]; simpl.
  - logic.
  - destruct (String.eqb k k') eqn:E.
    + apply String.eqb_eq in E. subst. split; [discriminate | logic].
    + apply String.eqb_neq in E. rewrite IH. split.
      * intros Hn [Heq | Hin]; [now apply E | now apply Hn].
      * logic.
Qed.

Lemma dict_get_In {V : Type} (d : list (string * V)) k :
  In k (dict_keys d) -> exists v, dict_get d k = Some v.
Proof.
  intros Hin. destruct (dict_get d k) eqn:E; [eauto|].
  now apply dict_get_None in E.
Qed.

(** Assigning to a bound key keeps the keys and their order. *)
Lemma dict_keys_set_bound {V : Type} (d : list (string * V)) k v :
  In k (dict_keys d) -> dict_keys (dict_set d k v) = dict_keys d.
Proof.
  induction d as [|[k' v'] d IH]; simpl; [logic|].
  intros Hin. destruct (String.eqb k k') eqn:E; simpl; [reflexivity|].
  apply String.eqb_neq in E. f_equal. apply IH.
  destruct Hin as [Heq | Hin]; [now elim E | assumption].
Qed.

(** Assigning to a fresh key appends it. *)
Lemma dict_set_fresh {V : Type} (d : list (string * V)) k v :
  ~ In k (dict_keys d) -> dict_set d k v = (d ++ [(k, v)])%list.
Proof.
  induction d as [|[k' v'] d IH]; simpl; [reflexivity|].
  intros Hnin. destruct (String.eqb k k') eqn:E.
  - apply String.eqb_eq in E. subst k'. logic.
  - f_equal. apply IH. logic.
Qed.

(** ** The schema *)

Lemma insert_name_perm x l : Permutation (insert_name x l) (x :: l).
Proof.
  induction l as [|y l IH]; simpl; [reflexivity|].
  destruct (String.leb x y); [reflexivity|].
  rewrite IH. apply perm_swap.
Qed.

Lemma sort_names_perm l : Permutation (sort_names l) l.
Proof.
  induction l as [|x l IH]; simpl; [reflexivity|].
  rewrite insert_name_perm. now constructor.
Qed.

Lemma py_dir_NoDup mro : NoDup (py_dir mro).
Proof.
  unfold py_dir.
  apply (Permutation_NoDup (Permutation_sym (sort_names_perm _))).
  apply NoDup_nodup.
Qed.

Lemma py_getattr_bound mro attr :
  In attr (flat_map dict_keys mro) <-> py_getattr mro attr <> None.
Proof.
  induction mro as [|body bases IH]; simpl.
  - logic.
  - rewrite in_app_iff, IH.
    destruct (dict_get body attr) eqn:E.
    + split; [discriminate|]. intros _. left.
      destruct (in_dec string_dec attr (dict_keys body)) as [H|H]; auto.
      apply dict_get_None in H. congruence.
    + apply dict_get_None in E. logic.
Qed.

Lemma py_dir_In mro attr :
  In attr (py_dir mro) <-> py_getattr mro attr <> None.
Proof.
  rewrite <- py_getattr_bound. unfold py_dir. split; intros H.
  - apply (Permutation_in _ (sort_names_perm _)) in H.
    now apply nodup_In in H.
  - apply (Permutation_in _ (Permutation_sym (sort_names_perm _))).
    now apply nodup_In.
Qed.

Lemma iter_attribute_keys mro :
  dict_keys (iter_attribute mro) = filter (yielded mro) (py_dir mro).
Proof.
  unfold iter_attribute, yielded.
  induction (py_dir mro) as [|a l IH]; simpl; [reflexivity|].
  unfold dict_keys in *. rewrite map_app, IH.
  destruct (startswith_underscore a); simpl; [reflexivity|].
  destruct (py_getattr mro a) as [v|]; simpl; [|reflexivity].
  destruct (is_function_or_property v); reflexivity.
Qed.

Lemma iter_attribute_NoDup mro : NoDup (dict_keys (iter_attribute mro)).
Proof.
  rewrite iter_attribute_keys. apply NoDup_filter, py_dir_NoDup.
Qed.

Lemma iter_attribute_In mro attr value :
  In (attr, value) (iter_attribute mro) <->
  py_getattr mro attr = Some value /\
  startswith_underscore attr = false /\
  is_function_or_property value = false.
Proof.
  unfold iter_attribute. rewrite in_flat_map. split.
  - intros [a [_ Hin]].
    destruct (startswith_underscore a) eqn:Hu; [destruct Hin|].
    destruct (py_getattr mro a) as [v|] eqn:Hg; [|destruct Hin].
    destruct (is_function_or_property v) eqn:Hf; [destruct Hin|].
    destruct Hin as [[= <- <-] | []]. auto.
  - intros (Hg & Hu & Hf). exists attr. split.
    + apply py_dir_In. congruence.
    + rewrite Hu, Hg, Hf. now left.
Qed.

Lemma fold_dict_set_time (l : list (string * pyval)) :
  forall t acc,
    NoDup (dict_keys l) ->
    (forall a, In a (dict_keys l) -> ~ In a (dict_keys acc)) ->
    ~ In "time" (dict_keys acc) ->
    fold_left (fun attrs av => dict_set attrs (fst av) (snd av)) l
      (("time", t) :: acc)
    = ("time", match dict_get l "time" with Some v => v | None => t end)
        :: (acc ++ filter not_time l)%list.
Proof.
  induction l as [|[a v] l IH]; intros t acc Hnd Hdisj Htime.
  - simpl. now rewrite app_nil_r.
  - inversion Hnd as [|? ? Hfresh Hnd']; subst.
    cbn [fold_left filter dict_get fst snd].
    destruct (String.eqb a "time") eqn:E.
    + apply String.eqb_eq in E. subst a.
      unfold not_time at 2. cbn [dict_set negb fst].
      rewrite !String.eqb_refl. cbn [negb].
      rewrite IH; auto.
      * apply dict_get_None in Hfresh. now rewrite Hfresh.
      * intros b Hb. apply Hdisj. now right.
    + assert (E' : String.eqb "time" a = false)
        by now rewrite String.eqb_sym.
      cbn [dict_set negb]. rewrite E, E'.
      rewrite dict_set_fresh by (apply Hdisj; now left).
      rewrite IH; auto.
      * unfold not_time at 2. cbn [fst]. rewrite E. cbn [negb].
        now rewrite <- app_assoc.
      * intros b Hb. unfold dict_keys. rewrite map_app, in_app_iff. simpl.
        intros [Hin | [<- | []]].
        -- revert Hin. apply Hdisj. now right.
        -- contradiction.
      * unfold dict_keys. rewrite map_app, in_app_iff. simpl.
        intros [Hin | [-> | []]]; [contradiction|].
        now rewrite String.eqb_refl in E.
Qed.

(** The derived schema of any class: [time] first, then the yielded
    members other than [time]; the default of [time] is the class's own
    [time] member when [iter_attribute] yields one. *)
Lemma derive_attrs_shape mro :
  derive_attrs mro
  = ("time", match dict_get (iter_attribute mro) "time" with
             | Some v => v
             | None => PyDatetime DEFAULT_TIME
             end)
      :: filter not_time (iter_attribute mro).
Proof.
  unfold derive_attrs.
  rewrite (fold_dict_set_time (iter_attribute mro) _ []); auto.
  apply iter_attribute_NoDup.
Qed.

Lemma filter_not_time_In attr value l :
  In (attr, value) (filter not_time l) <-> attr <> "time" /\ In (attr, value) l.
Proof.
  rewrite filter_In. unfold not_time. simpl.
  rewrite negb_true_iff, String.eqb_neq. logic.
Qed.

Lemma filter_not_time_keys l :
  dict_keys (filter not_time l)
  = filter (fun a => negb (String.eqb a "time")) (dict_keys l).
Proof.
  induction l as [|[a v] l IH]; simpl; [reflexivity|].
  unfold not_time at 1. simpl.
  destruct (String.eqb a "time"); simpl; now rewrite IH.
Qed.

Lemma derive_attrs_keys_NoDup mro : NoDup (dict_keys (derive_attrs mro)).
Proof.
  rewrite derive_attrs_shape. simpl. constructor.
  - rewrite filter_not_time_keys, filter_In.
    intros [_ H]. now rewrite String.eqb_refl in H.
  - rewrite filter_not_time_keys. apply NoDup_filter, iter_attribute_NoDup.
Qed.

(** No schema name starts with an underscore. *)
Lemma derive_attrs_public mro attr :
  In attr (dict_keys (derive_attrs mro)) ->
  startswith_underscore attr = false.
Proof.
  rewrite derive_attrs_shape. simpl. intros [<- | Hin]; [reflexivity|].
  unfold dict_keys in Hin. apply in_map_iff in Hin.
  destruct Hin as [[a v] [<- Hin]]. simpl.
  apply filter_not_time_In in Hin. destruct Hin as [_ Hin].
  now apply iter_attribute_In in Hin.
Qed.

(** Every record type of the module inherits [StoredBase.time]. *)
Lemma class_time (c : StoredClass) :
  dict_get (iter_attribute (class_mro c)) "time"
  = Some (PyDatetime DEFAULT_TIME).
Proof. destruct c; reflexivity. Qed.

(** ** Steps *)

Lemma step_ok_refl s : step_ok s s.
Proof. unfold step_ok. auto. Qed.

Lemma step_ok_trans s1 s2 s3 : step_ok s1 s2 -> step_ok s2 s3 -> step_ok s1 s3.
Proof.
  unfold step_ok. intros (Hc & Hk & Hb & Hi) (Hc' & Hk' & Hb' & Hi').
  split; [congruence|]. split; [congruence|]. split; auto.
Qed.

Lemma stable_ret {A : Type} (a : A) : stable (ret a).
Proof. intros s. apply step_ok_refl. Qed.

Lemma stable_raise {A : Type} (e : PyExc) : stable (@raise A e).
Proof. intros s. apply step_ok_refl. Qed.

Lemma stable_bind {A B : Type} (m : M A) (k : A -> M B) :
  stable m -> (forall a, stable (k a)) -> stable (bind m k).
Proof.
  intros Hm Hk s. unfold bind. specialize (Hm s).
  destruct (m s) as [[a|e] s']; simpl in *; [|assumption].
  eapply step_ok_trans; [eassumption | apply Hk].
Qed.

Lemma stable_try_except {A : Type} (m handler : M A) e :
  stable m -> stable handler -> stable (try_except m e handler).
Proof.
  intros Hm Hh s. unfold try_except. specialize (Hm s).
  destruct (m s) as [[a|e'] s']; simpl in *; [assumption|].
  destruct (PyExc_eqb e e'); [|assumption].
  eapply step_ok_trans; [eassumption | apply Hh].
Qed.

(** A step that touches neither the class, the key, the config nor the
    snapshot. *)
Lemma step_ok_same s s' :
  __class__ s' = __class__ s -> _key s' = _key s ->
  _config s' = _config s -> _stored_cache s' = _stored_cache s ->
  step_ok s s'.
Proof.
  intros Hc Hk Hb Hs. unfold step_ok, inv, _attrs.
  rewrite Hc, Hk, Hb, Hs. auto.
Qed.

Lemma step_ok_set_config s config : step_ok s (set_config s config).
Proof.
  unfold step_ok, inv, _attrs. simpl.
  split; [reflexivity|]. split; [reflexivity|]. split; [discriminate|].
  intros Hinv d Hd. split; [now apply Hinv | discriminate].
Qed.

(** ** Hydration *)

Lemma log_only_refl s : log_only s s.
Proof. unfold log_only. now repeat split. Qed.

Lemma log_only_trans s1 s2 s3 :
  log_only s1 s2 -> log_only s2 s3 -> log_only s1 s3.
Proof. unfold log_only. logic_with congruence. Qed.

Lemma validate_log_only attr default value s :
  log_only s (snd (validate attr default value s)).
Proof.
  unfold validate, try_except, py_fromisoformat, bind, logger_warning,
    ret, raise.
  destruct (String.eqb attr "time").
  - destruct (negb (isinstance_datetime value)); [|apply log_only_refl].
    destruct value; simpl; try apply log_only_refl.
    destruct (fromisoformat s0); simpl;
      [apply log_only_refl | unfold log_only; simpl; now repeat split].
  - destruct (negb (isinstance_type_of value default)); simpl;
      [unfold log_only; simpl; now repeat split | apply log_only_refl].
Qed.

Lemma hydrate_loop_log_only stored items :
  forall out s, log_only s (snd (hydrate_loop stored items out s)).
Proof.
  induction items as [|[attr default] items IH]; intros out s; simpl.
  - apply log_only_refl.
  - unfold bind. destruct stored; simpl; try apply log_only_refl.
    pose proof (validate_log_only attr default
                  match dict_get d attr with Some v => v | None => default end
                  s) as Hv.
    destruct (validate _ _ _ s) as [[v|e] s']; simpl in *; [|assumption].
    eapply log_only_trans; [eassumption | apply IH].
Qed.

Lemma hydrate_loop_keys stored items :
  forall out s d,
    NoDup (dict_keys items) ->
    (forall a, In a (dict_keys items) -> ~ In a (dict_keys out)) ->
    fst (hydrate_loop stored items out s) = Ok d ->
    dict_keys d = (dict_keys out ++ dict_keys items)%list.
Proof.
  induction items as [|[attr default] items IH]; intros out s d Hnd Hdisj.
  - simpl. intros [= ->]. now rewrite app_nil_r.
  - simpl. unfold bind. destruct stored; simpl; try discriminate.
    destruct (validate _ _ _ s) as [[v|e] s']; simpl; [|discriminate].
    inversion Hnd as [|? ? Hfresh Hnd']; subst.
    intros H. apply IH in H; auto.
    + rewrite H, dict_set_fresh by (apply Hdisj; now left).
      unfold dict_keys. rewrite map_app. simpl. now rewrite <- app_assoc.
    + intros a Ha. rewrite dict_set_fresh by (apply Hdisj; now left).
      unfold dict_keys. rewrite map_app, in_app_iff. simpl.
      intros [Hin | [<- | []]].
      * revert Hin. apply Hdisj. now right.
      * contradiction.
Qed.

Lemma validate_set_config attr default value s config :
  validate attr default value (set_config s config)
  = (fst (validate attr default value s),
     set_config (snd (validate attr default value s)) config).
Proof.
  unfold validate, try_except, py_fromisoformat, bind, logger_warning,
    ret, raise.
  destruct (String.eqb attr "time").
  - destruct (negb (isinstance_datetime value)); [|reflexivity].
    destruct value; try reflexivity.
    destruct (fromisoformat s0); reflexivity.
  - destruct (negb (isinstance_type_of value default)); reflexivity.
Qed.

Lemma hydrate_loop_set_config stored items :
  forall out s config,
    hydrate_loop stored items out (set_config s config)
    = (fst (hydrate_loop stored items out s),
       set_config (snd (hydrate_loop stored items out s)) config).
Proof.
  induction items as [|[attr default] items IH]; intros out s config.
  - reflexivity.
  - simpl. unfold bind. destruct stored; try reflexivity. simpl.
    rewrite validate_set_config.
    destruct (validate _ _ _ s) as [[v|e] s']; simpl; [apply IH | reflexivity].
Qed.

(** ** Reading the snapshot *)

Lemma base_stored_frame s : frame s (snd (StoredBase__stored s)).
Proof.
  unfold StoredBase__stored, hydrate.
  destruct (_stored_cache s); [now repeat split|].
  destruct (_config s) as [config|]; [|now repeat split].
  pose proof (hydrate_loop_log_only
                (deep_get (data config) (_key s) (PyDict []))
                (_attrs s) [] s) as Hl.
  destruct (hydrate_loop _ _ _ s) as [[d|e] s']; simpl in *;
    unfold log_only in Hl; unfold frame; simpl; logic_with idtac.
Qed.

Lemma stored_frame s : frame s (snd (_stored s)).
Proof.
  pose proof (base_stored_frame s) as Hb.
  unfold _stored, StoredDailyActivity__stored, bind, write_stored, ret.
  destruct (__class__ s) eqn:Hc; try exact Hb.
  destruct (StoredBase__stored s) as [[d|e] s']; simpl in *; exact Hb.
Qed.

Lemma base_stored_ok s d s1 :
  inv s -> StoredBase__stored s = (Ok d, s1) ->
  _stored_cache s1 = Some d /\
  dict_keys d = dict_keys (_attrs s) /\
  _config s <> None.
Proof.
  intros Hinv. unfold StoredBase__stored, hydrate.
  destruct (_stored_cache s) as [d0|] eqn:Hcache.
  - intros [= <- <-]. destruct (Hinv _ Hcache). auto.
  - destruct (_config s) as [config|]; [|discriminate].
    destruct (hydrate_loop _ _ _ s) as [[d'|e] s'] eqn:Hh; [|discriminate].
    intros [= <- <-]. simpl. repeat split; [|discriminate].
    apply (f_equal fst) in Hh. simpl in Hh.
    apply hydrate_loop_keys in Hh; auto.
    apply derive_attrs_keys_NoDup.
Qed.

Lemma base_stored_raise s e s1 :
  StoredBase__stored s = (Raise e, s1) -> _stored_cache s1 = None.
Proof.
  unfold StoredBase__stored, hydrate.
  destruct (_stored_cache s) as [d0|] eqn:Hcache; [discriminate|].
  destruct (_config s) as [config|]; [|now intros [= <- <-]].
  pose proof (hydrate_loop_log_only
                (deep_get (data config) (_key s) (PyDict []))
                (_attrs s) [] s) as Hl.
  destruct (hydrate_loop _ _ _ s) as [[d'|e'] s']; [discriminate|].
  intros [= <- <-]. unfold log_only in Hl. simpl in Hl.
  destruct Hl as (_ & _ & _ & Hl & _). congruence.
Qed.

Lemma activity_total_in_schema s :
  __class__ s = StoredDailyActivity -> In "total" (dict_keys (_attrs s)).
Proof.
  intros Hc. unfold _attrs. rewrite Hc. apply dict_mem_In. reflexivity.
Qed.

Lemma stored_ok s d s1 :
  inv s -> _stored s = (Ok d, s1) ->
  _stored_cache s1 = Some d /\
  dict_keys d = dict_keys (_attrs s) /\
  _config s <> None /\
  (__class__ s = StoredDailyActivity -> dict_get d "total" = Some (PyInt 500)).
Proof.
  intros Hinv. unfold _stored.
  destruct (__class__ s) eqn:Hc;
    try (intros H; destruct (base_stored_ok _ _ _ Hinv H) as (? & ? & ?);
         repeat split; auto; discriminate).
  unfold StoredDailyActivity__stored, bind, write_stored, ret.
  destruct (StoredBase__stored s) as [[d0|e] s0] eqn:Hb; [|discriminate].
  intros [= <- <-]. simpl.
  destruct (base_stored_ok _ _ _ Hinv Hb) as (_ & Hk & Hcfg).
  repeat split; auto.
  - rewrite dict_keys_set_bound; [assumption|].
    rewrite Hk. now apply activity_total_in_schema.
  - intros _. apply dict_get_set_same.
Qed.

Lemma stored_raise s e s1 :
  _stored s = (Raise e, s1) -> _stored_cache s1 = None.
Proof.
  unfold _stored.
  destruct (__class__ s); try apply base_stored_raise.
  unfold StoredDailyActivity__stored, bind, write_stored, ret.
  destruct (StoredBase__stored s) as [[d0|e0] s0] eqn:Hb; [discriminate|].
  intros [= <- <-]. eapply base_stored_raise, Hb.
Qed.

Lemma stable__stored : stable _stored.
Proof.
  intros s. pose proof (stored_frame s) as (Hc & Hk & Hcfg & _).
  unfold step_ok. rewrite Hc, Hk, Hcfg.
  split; [reflexivity|]. split; [reflexivity|]. split; [trivial|].
  intros Hinv. destruct (_stored s) as [[d|e] s1] eqn:Hs; simpl in *.
  - destruct (stored_ok _ _ _ Hinv Hs) as (Hcache & Hkeys & Hb & _).
    intros d' Hd'. unfold _attrs in *. rewrite Hc, Hcfg.
    split; [congruence | assumption].
  - apply stored_raise in Hs. intros d' Hd'. congruence.
Qed.





(** ** Attribute access *)

Lemma time_in_schema s : In "time" (dict_keys (_attrs s)).
Proof. unfold _attrs. rewrite derive_attrs_shape. now left. Qed.

Lemma stamped_keys s d key value :
  dict_keys d = dict_keys (_attrs s) -> In key (dict_keys (_attrs s)) ->
  dict_keys (stamped s d key value) = dict_keys (_attrs s).
Proof.
  intros Hk Hin. unfold stamped.
  rewrite !dict_keys_set_bound; auto.
  - rewrite Hk. apply time_in_schema.
  - rewrite dict_keys_set_bound; rewrite Hk; auto. apply time_in_schema.
Qed.

Lemma setattr_raise s e s1 key value :
  _stored s = (Raise e, s1) ->
  In key (dict_keys (_attrs s)) ->
  __setattr__ key value s = (Raise e, s1).
Proof.
  intros Hs Hin. unfold __setattr__.
  apply dict_mem_In in Hin. rewrite Hin. unfold bind. now rewrite Hs.
Qed.

Lemma setattr_unfold s d s1 key value :
  _stored s = (Ok d, s1) ->
  In key (dict_keys (_attrs s)) ->
  __setattr__ key value s
  = match _config s with
    | None =>
        (Raise AttributeError, set_cache (tick s1) (stamped s d key value))
    | Some config => (Ok tt, after_set s1 config (stamped s d key value))
    end.
Proof.
  intros Hs Hin. unfold __setattr__.
  apply dict_mem_In in Hin. rewrite Hin.
  pose proof (stored_frame s) as (_ & _ & Hcfg & _ & Ht).
  rewrite Hs in Hcfg, Ht. simpl in Hcfg, Ht.
  unfold bind, now, write_stored, register_modified, update_if_auto, stamped.
  rewrite Hs. simpl. rewrite Hcfg, Ht.
  destruct (_config s) as [config|]; [|reflexivity].
  simpl. unfold after_set, pending. simpl.
  destruct (auto_update config); reflexivity.
Qed.

Lemma after_set_cache s1 config stored :
  _stored_cache (after_set s1 config stored) = Some stored.
Proof. unfold after_set. destruct (auto_update config); reflexivity. Qed.

Lemma after_set_class s1 config stored :
  __class__ (after_set s1 config stored) = __class__ s1.
Proof. unfold after_set. destruct (auto_update config); reflexivity. Qed.

Lemma after_set_key s1 config stored :
  _key (after_set s1 config stored) = _key s1.
Proof. unfold after_set. destruct (auto_update config); reflexivity. Qed.

Lemma after_set_config s1 config stored :
  _config (after_set s1 config stored)
  = Some (if auto_update config
          then update (Some stored) (pending config (_key s1))
          else pending config (_key s1)).
Proof. unfold after_set. destruct (auto_update config); reflexivity. Qed.


Lemma stable_setattr key value : stable (__setattr__ key value).
Proof.
  intros s.
  destruct (dict_mem key (_attrs s)) eqn:Hmem.
  - apply dict_mem_In in Hmem.
    pose proof (stable__stored s) as Hst.
    pose proof (stored_frame s) as (Hc & Hk & Hcfg & _).
    destruct (_stored s) as [[d|e] s1] eqn:Hs; simpl in *.
    + rewrite (setattr_unfold _ _ _ _ _ Hs Hmem).
      destruct Hst as (_ & _ & _ & Hinv).
      destruct (_config s) as [config|] eqn:Hcs; simpl.
      * unfold step_ok.
        rewrite after_set_class, after_set_key, after_set_config.
        split; [assumption|]. split; [assumption|].
        split; [discriminate|].
        intros Hi d' Hd'. rewrite after_set_cache in Hd'.
        injection Hd' as <-. rewrite after_set_config.
        split; [|discriminate].
        unfold _attrs. rewrite after_set_class.
        destruct (stored_ok _ _ _ Hi Hs) as (_ & Hkeys & _).
        unfold _attrs in Hc. rewrite Hc.
        now apply stamped_keys.
      * unfold step_ok. simpl.
        split; [assumption|]. split; [assumption|].
        split; [intros H; now elim H|].
        intros Hi. destruct (stored_ok _ _ _ Hi Hs) as (_ & _ & Hb & _).
        congruence.
    + now rewrite (setattr_raise _ _ _ _ _ Hs Hmem).
  - unfold __setattr__. rewrite Hmem. now apply step_ok_same.
Qed.

Lemma getattribute_unfold s item :
  In item (dict_keys (_attrs s)) ->
  __getattribute__ item s
  = (stored <- _stored ;; py_getitem stored item) s.
Proof.
  intros Hin. unfold __getattribute__.
  rewrite (derive_attrs_public _ _ Hin).
  apply dict_mem_In in Hin. now rewrite Hin.
Qed.

Lemma getattribute_ok s d s1 item :
  inv s -> _stored s = (Ok d, s1) ->
  In item (dict_keys (_attrs s)) ->
  exists v, dict_get d item = Some v /\ __getattribute__ item s = (Ok v, s1).
Proof.
  intros Hinv Hs Hin.
  destruct (stored_ok _ _ _ Hinv Hs) as (_ & Hkeys & _).
  rewrite <- Hkeys in Hin. destruct (dict_get_In _ _ Hin) as [v Hv].
  exists v. split; [assumption|].
  rewrite getattribute_unfold by now rewrite <- Hkeys.
  unfold bind, py_getitem. now rewrite Hs, Hv.
Qed.

Lemma stable_py_getitem stored item : stable (py_getitem stored item).
Proof.
  unfold py_getitem.
  destruct (dict_get stored item); [apply stable_ret | apply stable_raise].
Qed.

Lemma stable_getattribute item : stable (__getattribute__ item).
Proof.
  intros s. unfold __getattribute__.
  destruct (negb (startswith_underscore item) && dict_mem item (_attrs s)).
  - apply (stable_bind _stored (fun stored => py_getitem stored item)).
    + apply stable__stored.
    + intros stored. apply stable_py_getitem.
  - unfold object_getattribute.
    destruct (dict_get (__dict__ s) item); [apply step_ok_refl|].
    destruct (py_getattr _ item); apply step_ok_refl.
Qed.

Lemma stable_readable_time : stable readable_time.
Proof.
  unfold readable_time.
  apply stable_bind; [apply stable_getattribute|]. intros t.
  apply stable_bind.
  { unfold py_timestamp. destruct t; try apply stable_raise. apply stable_ret. }
  intros stamp. apply stable_bind.
  { intros s. now apply step_ok_same. }
  intros clock. cbv zeta.
  repeat (match goal with
          | |- stable (if ?c then _ else _) => destruct c
          end; try apply stable_ret).
Qed.

Lemma stable_with_multi_set {A : Type} (body : M A) :
  stable body -> stable (with_multi_set body).
Proof.
  intros Hbody s. unfold with_multi_set.
  destruct (_config s) as [config|]; [|apply step_ok_refl].
  destruct (multi_set_enter config) as [w config1].
  specialize (Hbody (set_config s config1)).
  destruct (body (set_config s config1)) as [r s']. simpl in Hbody.
  assert (Hs' : step_ok s s').
  { eapply step_ok_trans; [apply step_ok_set_config | exact Hbody]. }
  destruct (_config s') as [config2|]; simpl; [|assumption].
  eapply step_ok_trans; [exact Hs' | apply step_ok_set_config].
Qed.

Lemma stable_counter_set current total : stable (StoredCounter_set current total).
Proof.
  apply stable_with_multi_set.
  apply stable_bind; [apply stable_setattr|]. intros _. apply stable_setattr.
Qed.

Lemma stable_load_quests : stable load_quests.
Proof.
  unfold load_quests.
  repeat (apply stable_bind; [apply stable_getattribute|]; intros ?).
  apply stable_ret.
Qed.

Lemma stable_write_slot slot quests i : stable (write_slot slot quests i).
Proof.
  apply stable_try_except; [|apply stable_setattr].
  intros s. destruct (py_index quests i); [apply stable_setattr|].
  apply step_ok_refl.
Qed.

Lemma stable_write_quests quests : stable (write_quests quests).
Proof.
  unfold write_quests. apply stable_with_multi_set.
  repeat (apply stable_bind; [apply stable_write_slot|]; intros _).
  apply stable_write_slot.
Qed.

(** ** Records *)

Lemma reachable_from_step_ok s0 s : reachable_from s0 s -> step_ok s0 s.
Proof.
  induction 1 as [|config s _ IH|s _ IH|item s _ IH|key value s _ IH|s _ IH
                 |current total s _ IH|current s _ IH|s _ IH|quests s _ IH].
  - apply step_ok_refl.
  - eapply step_ok_trans; [exact IH | apply step_ok_set_config].
  - eapply step_ok_trans; [exact IH | apply stable__stored].
  - eapply step_ok_trans; [exact IH | apply stable_getattribute].
  - eapply step_ok_trans; [exact IH | apply stable_setattr].
  - eapply step_ok_trans; [exact IH | apply stable_readable_time].
  - eapply step_ok_trans; [exact IH | apply stable_counter_set].
  - eapply step_ok_trans; [exact IH | apply stable_counter_set].
  - eapply step_ok_trans; [exact IH | apply stable_load_quests].
  - eapply step_ok_trans; [exact IH | apply stable_write_quests].
Qed.

Lemma reachable_inv s : reachable s -> inv s.
Proof.
  intros (c & key & Hr). apply reachable_from_step_ok in Hr.
  destruct Hr as (_ & _ & _ & Hinv). apply Hinv.
  intros d. discriminate.
Qed.

(** Once the snapshot exists, reading it hydrates nothing. *)
Lemma stored_cached s d :
  _stored_cache s = Some d ->
  __class__ s <> StoredDailyActivity ->
  _stored s = (Ok d, s).
Proof.
  intros Hcache Hc.
  assert (Hb : StoredBase__stored s = (Ok d, s)).
  { unfold StoredBase__stored. now rewrite Hcache. }
  unfold _stored. destruct (__class__ s); try exact Hb. now elim Hc.
Qed.

Lemma stored_cached_activity s d :
  _stored_cache s = Some d ->
  __class__ s = StoredDailyActivity ->
  _stored s
  = (Ok (dict_set d "total" (PyInt 500)),
     set_cache s (dict_set d "total" (PyInt 500))).
Proof.
  intros Hcache Hc.
  unfold _stored, StoredDailyActivity__stored, StoredBase__stored, bind.
  now rewrite Hc, Hcache.
Qed.

(** A config with the same tree gives the same snapshot. *)
Lemma base_stored_set_config s config config' :
  _config s = Some config -> data config' = data config ->
  StoredBase__stored (set_config s config')
  = (fst (StoredBase__stored s), set_config (snd (StoredBase__stored s)) config').
Proof.
  intros Hcfg Hdata. unfold StoredBase__stored, hydrate. simpl.
  destruct (_stored_cache s) as [d|]; [reflexivity|].
  rewrite Hcfg, Hdata. unfold _attrs. simpl.
  rewrite hydrate_loop_set_config.
  destruct (hydrate_loop _ _ _ s) as [[d|e] s']; reflexivity.
Qed.

Lemma stored_set_config s config config' :
  _config s = Some config -> data config' = data config ->
  _stored (set_config s config')
  = (fst (_stored s), set_config (snd (_stored s)) config').
Proof.
  intros Hcfg Hdata.
  pose proof (base_stored_set_config _ _ _ Hcfg Hdata) as Hb.
  unfold _stored, StoredDailyActivity__stored, bind, write_stored, ret. simpl.
  destruct (__class__ s); try exact Hb.
  rewrite Hb. destruct (StoredBase__stored s) as [[d|e] s']; reflexivity.
Qed.

Lemma stamped_get_same s d key value :
  dict_get (stamped s d key value) key = Some value.
Proof. apply dict_get_set_same. Qed.

Lemma stamped_get_other s d key value item :
  String.eqb item key = false -> String.eqb item "time" = false ->
  dict_get (stamped s d key value) item = dict_get d item.
Proof.
  intros Hk Ht. unfold stamped. now rewrite !dict_get_set_other.
Qed.

Lemma stamped_get_time s d key value :
  String.eqb "time" key = false ->
  dict_get (stamped s d key value) "time"
  = Some (PyDatetime (replace_microsecond_0 (datetime_now (ticks s)))).
Proof.
  intros Hk. unfold stamped.
  rewrite dict_get_set_other by assumption. apply dict_get_set_same.
Qed.

(** [__setattr__] on a record whose snapshot reads. *)
Lemma setattr_ok s d s1 key value :
  inv s -> _stored s = (Ok d, s1) ->
  In key (dict_keys (_attrs s)) ->
  exists config,
    _config s = Some config /\
    __setattr__ key value s
    = (Ok tt, after_set s1 config (stamped s d key value)).
Proof.
  intros Hinv Hs Hin.
  destruct (stored_ok _ _ _ Hinv Hs) as (_ & _ & Hb & _).
  destruct (_config s) as [config|] eqn:Hcfg; [|now elim Hb].
  exists config. split; [reflexivity|].
  rewrite (setattr_unfold _ _ _ _ _ Hs Hin). now rewrite Hcfg.
Qed.

(** Reading an attribute back from the state [__setattr__] leaves. *)
Lemma get_after_set s1 config stored item v :
  dict_get stored item = Some v ->
  In item (dict_keys (_attrs s1)) ->
  fst (__getattribute__ item (after_set s1 config stored))
  = Ok (if match __class__ s1 with StoredDailyActivity => true | _ => false end
           && String.eqb item "total"
        then PyInt 500 else v).
Proof.
  intros Hv Hin.
  rewrite getattribute_unfold
    by (unfold _attrs in *; now rewrite after_set_class).
  unfold bind.
  pose proof (after_set_cache s1 config stored) as Hcache.
  pose proof (after_set_class s1 config stored) as Hc.
  destruct (__class__ s1) eqn:Hc1;
    try (rewrite (stored_cached _ _ Hcache) by (rewrite Hc; discriminate);
         unfold py_getitem; now rewrite Hv).
  rewrite (stored_cached_activity _ _ Hcache Hc). unfold py_getitem.
  destruct (String.eqb item "total") eqn:E; simpl.
  - apply String.eqb_eq in E. subst item. now rewrite dict_get_set_same.
  - rewrite dict_get_set_other by assumption. now rewrite Hv.
Qed.

(** ** The claims *)

(** The schema keys of the record types of the module. *)
Lemma schema_keys (c : StoredClass) :
  dict_keys (derive_attrs (class_mro c))
  = match c with
    | StoredBase | StoredExpiredAt0400 => ["time"]
    | StoredInt => ["time"; "value"]
    | StoredCounter | StoredDailyActivity => ["time"; "current"; "total"]
    | StoredDaily => "time" :: quest_slots
    | StoredDungeonDouble => ["time"; "calyx"; "relic"]
    end.
Proof. destruct c; reflexivity. Qed.



Lemma replace_microsecond_0_spec t :
  replace_microsecond_0 t mod 1000000 = 0 /\
  replace_microsecond_0 t <= t < replace_microsecond_0 t + 1000000.
Proof.
  unfold replace_microsecond_0.
  pose proof (Z.mod_pos_bound t 1000000 ltac:(lia)) as Hb.
  split; [|lia].
  rewrite Zminus_mod_idemp_r, Z.sub_diag. reflexivity.
Qed.


(** C9. On a bound record whose snapshot reads, setting a schema attribute
    other than [time] leaves [time] equal to the clock reading cut to whole
    seconds; setting [time] itself leaves the value supplied: the stamp is
    written first and the attribute second. *)
Theorem setattr_time_stamp s d s1 key value :
  reachable s ->
  _stored s = (Ok d, s1) ->
  In key (dict_keys (_attrs s)) ->
  exists s2 d2,
    __setattr__ key value s = (Ok tt, s2) /\
    _stored_cache s2 = Some d2 /\
    (key <> "time" ->
     dict_get d2 "time"
     = Some (PyDatetime (replace_microsecond_0 (datetime_now (ticks s)))) /\
     fst (__getattribute__ "time" s2)
     = Ok (PyDatetime (replace_microsecond_0 (datetime_now (ticks s))))) /\
    (key = "time" ->
     dict_get d2 "time" = Some value /\
     fst (__getattribute__ "time" s2) = Ok value).
Proof.
  intros Hr Hs Hin.
  pose proof (reachable_inv _ Hr) as Hinv.
  destruct (setattr_ok _ _ _ _ value Hinv Hs Hin) as (config & Hcfg & Hset).
  pose proof (stored_frame s) as (Hc & _).
  rewrite Hs in Hc. simpl in Hc.
  assert (Htime : In "time" (dict_keys (_attrs s1)))
    by apply time_in_schema.
  exists (after_set s1 config (stamped s d key value)), (stamped s d key value).
  split; [exact Hset|]. split; [apply after_set_cache|]. split.
  - intros Hne.
    assert (E : String.eqb "time" key = false)
      by (apply String.eqb_neq; congruence).
    split; [now apply stamped_get_time|].
    rewrite (get_after_set _ _ _ _ _ (stamped_get_time s d key value E) Htime).
    now rewrite andb_false_r.
  - intros ->. split; [apply stamped_get_same|].
    rewrite (get_after_set _ _ _ _ _ (stamped_get_same s d "time" value) Htime).
    now rewrite andb_false_r.
Qed.

(** C4, as amended. On a bound record whose snapshot reads, setting a
    schema attribute and reading it back returns the value set, except for
    the [total] of a StoredDailyActivity, which reads 500 whatever was set. *)
Theorem set_then_get s d s1 key value :
  reachable s ->
  _stored s = (Ok d, s1) ->
  In key (dict_keys (_attrs s)) ->
  exists s2,
    __setattr__ key value s = (Ok tt, s2) /\
    (__class__ s = StoredDailyActivity /\ key = "total" ->
     fst (__getattribute__ key s2) = Ok (PyInt 500)) /\
    (~ (__class__ s = StoredDailyActivity /\ key = "total") ->
     fst (__getattribute__ key s2) = Ok value).
Proof.
  intros Hr Hs Hin.
  pose proof (reachable_inv _ Hr) as Hinv.
  destruct (setattr_ok _ _ _ _ value Hinv Hs Hin) as (config & Hcfg & Hset).
  pose proof (stored_frame s) as (Hc & _).
  rewrite Hs in Hc. simpl in Hc.
  assert (Hin1 : In key (dict_keys (_attrs s1)))
    by (unfold _attrs in *; now rewrite Hc).
  exists (after_set s1 config (stamped s d key value)).
  split; [exact Hset|].
  rewrite (get_after_set _ _ _ _ _ (stamped_get_same s d key value) Hin1).
  rewrite Hc. split.
  - intros [-> ->]. reflexivity.
  - intros Hn. destruct (__class__ s); try reflexivity.
    destruct (String.eqb key "total") eqn:E; [|reflexivity].
    apply String.eqb_eq in E. elim Hn. now split.
Qed.

Lemma readable_time_unfold s t s1 :
  __getattribute__ "time" s = (Ok (PyDatetime t), s1) ->
  fst (readable_time s)
  = let diff := (timestamp t - time_time (ticks s1))%Q in
    if Qlt_le_dec diff (-1 # 1) then Ok ("", "TimeError")
    else if Qlt_le_dec diff (60 # 1) then Ok ("", "JustNow")
    else if Qlt_le_dec diff (3600 # 1) then
      Ok (py_str_int (Qfloor (diff / (60 # 1))), "MinutesAgo")
    else if Qlt_le_dec diff (86400 # 1) then
      Ok (py_str_int (Qfloor (diff / (86400 # 1))), "HoursAgo")
    else if Qlt_le_dec diff (129600 # 1) then
      Ok (py_str_int (Qfloor (diff / (129600 # 1))), "DaysAgo")
    else Ok ("", "LongTimeAgo").
Proof.
  intros H. unfold readable_time, bind. rewrite H.
  unfold py_timestamp, read_time_time, ret. cbv zeta.
  repeat (destruct (Qlt_le_dec _ _); [reflexivity|]). reflexivity.
Qed.


(** ** Batched writes *)

Lemma getattribute_cached s d item v :
  _stored_cache s = Some d ->
  __class__ s <> StoredDailyActivity ->
  In item (dict_keys (_attrs s)) ->
  dict_get d item = Some v ->
  __getattribute__ item s = (Ok v, s).
Proof.
  intros Hcache Hc Hin Hv.
  rewrite getattribute_unfold by assumption.
  unfold bind, py_getitem. now rewrite (stored_cached _ _ Hcache Hc), Hv.
Qed.

Lemma getattribute_cached_activity s d item v :
  _stored_cache s = Some d ->
  __class__ s = StoredDailyActivity ->
  In item (dict_keys (_attrs s)) ->
  dict_get (dict_set d "total" (PyInt 500)) item = Some v ->
  fst (__getattribute__ item s) = Ok v.
Proof.
  intros Hcache Hc Hin Hv.
  rewrite getattribute_unfold by assumption.
  unfold bind, py_getitem.
  now rewrite (stored_cached_activity _ _ Hcache Hc), Hv.
Qed.

(** What the scope adds around its body. *)
Lemma with_multi_set_result {A : Type} (body : M A) s config r s' :
  _config s = Some config ->
  body (set_config s (snd (multi_set_enter config))) = (r, s') ->
  exists s2,
    with_multi_set body s = (r, s2) /\
    _stored_cache s2 = _stored_cache s' /\
    __class__ s2 = __class__ s'.
Proof.
  intros Hcfg Hbody. unfold with_multi_set. rewrite Hcfg.
  destruct (multi_set_enter config) as [w config1]. simpl in Hbody.
  rewrite Hbody.
  destruct (_config s') as [config2|]; eexists; repeat split; reflexivity.
Qed.

(** The state inside the scope reads the same snapshot. *)
Lemma stored_inside_scope s d s1 config :
  _config s = Some config ->
  _stored s = (Ok d, s1) ->
  _stored (set_config s (snd (multi_set_enter config)))
  = (Ok d, set_config s1 (snd (multi_set_enter config))).
Proof using Type multi_set_enter_data.
  intros Hcfg Hs.
  rewrite (stored_set_config _ _ _ Hcfg (multi_set_enter_data config)).
  now rewrite Hs.
Qed.

Lemma inv_set_config s config : inv s -> inv (set_config s config).
Proof. apply step_ok_set_config. Qed.

(** One slot of [write_quests], on a record whose snapshot reads: the item
    at the index is written, or the empty string past the end of the list. *)
Lemma write_slot_next s d s1 slot names i :
  inv s -> _stored s = (Ok d, s1) ->
  __class__ s = StoredDaily ->
  In slot (dict_keys (_attrs s)) ->
  exists s',
    write_slot slot names i s = (Ok tt, s') /\
    inv s' /\ __class__ s' = StoredDaily /\
    _stored s' = (Ok (stamped s d slot (nth i names (PyStr ""))), s').
Proof.
  intros Hinv Hs Hc Hin.
  pose proof (stable_write_slot slot names i s) as (_ & _ & _ & Hinv').
  specialize (Hinv' Hinv).
  pose proof (stored_frame s) as (Hc1 & _).
  rewrite Hs in Hc1. simpl in Hc1.
  assert (Hw : exists config,
             write_slot slot names i s
             = (Ok tt, after_set s1 config
                         (stamped s d slot (nth i names (PyStr ""))))).
  { unfold write_slot, try_except, py_index.
    destruct (nth_error names i) as [v|] eqn:E.
    - rewrite (nth_error_nth _ _ _ E).
      destruct (setattr_ok _ _ _ _ v Hinv Hs Hin) as (config & _ & Hset).
      exists config. now rewrite Hset.
    - apply nth_error_None in E. rewrite (nth_overflow _ _ E).
      destruct (setattr_ok _ _ _ _ (PyStr "") Hinv Hs Hin)
        as (config & _ & Hset).
      exists config. simpl. exact Hset. }
  destruct Hw as (config & Hw). rewrite Hw in Hinv'. simpl in Hinv'.
  eexists. split; [exact Hw|]. split; [exact Hinv'|].
  split; [rewrite after_set_class; congruence|].
  apply stored_cached; [apply after_set_cache|].
  rewrite after_set_class, Hc1, Hc. discriminate.
Qed.

Lemma daily_slot_in_schema s slot :
  __class__ s = StoredDaily -> In slot quest_slots ->
  In slot (dict_keys (_attrs s)).
Proof.
  intros Hc Hin. unfold _attrs. rewrite Hc. apply dict_mem_In.
  repeat (destruct Hin as [<- | Hin]; [reflexivity|]). destruct Hin.
Qed.

(** The six slot writes, on a record whose snapshot reads. *)
Lemma write_slots_spec s d s1 names :
  inv s -> _stored s = (Ok d, s1) ->
  __class__ s = StoredDaily ->
  exists s6 d6,
    (write_slot "quest1" names 0 ;;
     write_slot "quest2" names 1 ;;
     write_slot "quest3" names 2 ;;
     write_slot "quest4" names 3 ;;
     write_slot "quest5" names 4 ;;
     write_slot "quest6" names 5) s = (Ok tt, s6) /\
    inv s6 /\ __class__ s6 = StoredDaily /\
    _stored_cache s6 = Some d6 /\
    forall i, (i < 6)%nat ->
              dict_get d6 (nth i quest_slots "")
              = Some (nth i names (PyStr "")).
Proof.
  intros Hinv Hs Hc.
  assert (Hslot : forall s slot, __class__ s = StoredDaily ->
                                 In slot quest_slots ->
                                 In slot (dict_keys (_attrs s)))
    by (intros; now apply daily_slot_in_schema).
  destruct (write_slot_next _ _ _ "quest1" names 0%nat Hinv Hs Hc)
    as (sa & Ea & Ia & Ca & Sa); [apply Hslot; simpl; logic|].
  destruct (write_slot_next _ _ _ "quest2" names 1%nat Ia Sa Ca)
    as (sb & Eb & Ib & Cb & Sb); [apply Hslot; simpl; logic|].
  destruct (write_slot_next _ _ _ "quest3" names 2%nat Ib Sb Cb)
    as (sc & Ec & Ic & Cc & Sc); [apply Hslot; simpl; logic|].
  destruct (write_slot_next _ _ _ "quest4" names 3%nat Ic Sc Cc)
    as (sd & Ed & Id & Cd & Sd); [apply Hslot; simpl; logic|].
  destruct (write_slot_next _ _ _ "quest5" names 4%nat Id Sd Cd)
    as (se & Ee & Ie & Ce & Se); [apply Hslot; simpl; logic|].
  destruct (write_slot_next _ _ _ "quest6" names 5%nat Ie Se Ce)
    as (sf & Ef & If' & Cf & Sf); [apply Hslot; simpl; logic|].
  eexists sf, _. split.
  { unfold bind. now rewrite Ea, Eb, Ec, Ed, Ee, Ef. }
  split; [exact If'|]. split; [exact Cf|]. split.
  { destruct (stored_ok _ _ _ If' Sf) as (Hcache & _). exact Hcache. }
  intros i Hi.
  do 6 (destruct i as [|i];
        [ cbn [nth quest_slots];
          rewrite ?stamped_get_other by reflexivity;
          apply stamped_get_same |]).
  lia.
Qed.

Lemma load_quest_app quests name :
  load_quest quests name = (quests ++ resolve_slot name)%list.
Proof.
  unfold load_quest, resolve_slot.
  destruct (py_bool name); simpl; [|now rewrite app_nil_r].
  destruct (DailyQuest_find name); [reflexivity | now rewrite app_nil_r].
Qed.

Lemma fold_load_quest names :
  forall quests,
    fold_left load_quest names quests
    = (quests ++ flat_map resolve_slot names)%list.
Proof.
  induction names as [|n names IH]; intros quests; simpl.
  - now rewrite app_nil_r.
  - now rewrite IH, load_quest_app, <- app_assoc.
Qed.

(** [load_quests] on a StoredDaily whose snapshot exists. *)
Lemma load_quests_cached s d v1 v2 v3 v4 v5 v6 :
  _stored_cache s = Some d ->
  __class__ s = StoredDaily ->
  dict_get d "quest1" = Some v1 -> dict_get d "quest2" = Some v2 ->
  dict_get d "quest3" = Some v3 -> dict_get d "quest4" = Some v4 ->
  dict_get d "quest5" = Some v5 -> dict_get d "quest6" = Some v6 ->
  load_quests s
  = (Ok (flat_map resolve_slot [v1; v2; v3; v4; v5; v6]), s).
Proof.
  intros Hcache Hc H1 H2 H3 H4 H5 H6.
  assert (Hne : __class__ s <> StoredDailyActivity) by (rewrite Hc; discriminate).
  assert (Hget : forall slot v, In slot quest_slots -> dict_get d slot = Some v ->
                                __getattribute__ slot s = (Ok v, s)).
  { intros slot v Hin Hv.
    apply (getattribute_cached _ _ _ _ Hcache Hne); [|exact Hv].
    now apply daily_slot_in_schema. }
  unfold load_quests, bind, ret.
  rewrite (Hget "quest1" v1), (Hget "quest2" v2), (Hget "quest3" v3),
    (Hget "quest4" v4), (Hget "quest5" v5), (Hget "quest6" v6);
    try assumption; try (simpl; logic).
  now rewrite fold_load_quest.
Qed.

(** [write_quests] on a StoredDaily whose snapshot reads. *)
Lemma write_quests_spec s d s1 quests :
  inv s -> _stored s = (Ok d, s1) ->
  __class__ s = StoredDaily ->
  exists s2 d2,
    write_quests quests s = (Ok tt, s2) /\
    __class__ s2 = StoredDaily /\
    _stored_cache s2 = Some d2 /\
    forall i, (i < 6)%nat ->
              dict_get d2 (nth i quest_slots "")
              = Some (nth i (map quest_name quests) (PyStr "")).
Proof using Type multi_set_enter_data.
  intros Hinv Hs Hc.
  destruct (stored_ok _ _ _ Hinv Hs) as (_ & _ & Hb & _).
  destruct (_config s) as [config|] eqn:Hcfg; [|now elim Hb].
  pose proof (stored_inside_scope _ _ _ _ Hcfg Hs) as Hs'.
  destruct (write_slots_spec _ _ _ (map quest_name quests)
              (inv_set_config _ _ Hinv) Hs' Hc)
    as (s6 & d6 & Hbody & _ & Hc6 & Hcache6 & Hslots).
  destruct (with_multi_set_result _ _ _ _ _ Hcfg Hbody)
    as (s2 & Hw & Hcache2 & Hc2).
  exists s2, d6. unfold write_quests.
  split; [exact Hw|]. split; [congruence|]. split; [congruence|].
  exact Hslots.
Qed.

Lemma resolve_short_list names :
  (length names <= 6)%nat ->
  flat_map resolve_slot
    (map (fun i => nth i names (PyStr "")) (seq 0 6))
  = flat_map resolve_slot names.
Proof.
  intros Hlen.
  do 7 (destruct names as [|? names];
        [simpl; rewrite ?app_nil_r; reflexivity|]).
  simpl in Hlen. lia.
Qed.

Lemma resolve_named quest :
  name quest <> "" ->
  DailyQuest_find (PyStr (name quest)) = Some quest ->
  resolve_slot (PyStr (name quest)) = [quest].
Proof.
  intros Hne Hfind. unfold resolve_slot. simpl.
  apply String.eqb_neq in Hne. now rewrite Hne, Hfind.
Qed.

(** C7. On a bound StoredDaily whose snapshot reads, [write_quests] of at
    most six items succeeds and leaves in slot i the name of item i, in
    input order, and the empty string in every slot past the end of the
    list (so the empty list clears the six slots); [load_quests] then
    returns, in slot order, what [DailyQuest.find] makes of the non-empty
    slots that resolve; after writing two quests that resolve to
    themselves it returns these two, in order. *)
Theorem write_then_load_quests s d s1 quests :
  reachable s ->
  __class__ s = StoredDaily ->
  _stored s = (Ok d, s1) ->
  (length quests <= 6)%nat ->
  let names := map quest_name quests in
  exists s2 d2,
    write_quests quests s = (Ok tt, s2) /\
    _stored_cache s2 = Some d2 /\
    (forall i, (i < 6)%nat ->
               dict_get d2 (nth i quest_slots "")
               = Some (nth i names (PyStr ""))) /\
    (forall i, (length quests <= i < 6)%nat ->
               dict_get d2 (nth i quest_slots "") = Some (PyStr "")) /\
    (quests = [] ->
     forall slot, In slot quest_slots -> dict_get d2 slot = Some (PyStr "")) /\
    fst (load_quests s2)
    = Ok (flat_map resolve_slot
            (map (fun i => nth i names (PyStr "")) (seq 0 6))) /\
    fst (load_quests s2) = Ok (flat_map resolve_slot names) /\
    (forall a b,
        quests = [PyQuest a; PyQuest b] ->
        name a <> "" -> name b <> "" ->
        DailyQuest_find (PyStr (name a)) = Some a ->
        DailyQuest_find (PyStr (name b)) = Some b ->
        fst (load_quests s2) = Ok [a; b]).
Proof using Type multi_set_enter_data.
  intros Hr Hc Hs Hlen names.
  pose proof (reachable_inv _ Hr) as Hinv.
  destruct (write_quests_spec _ _ _ quests Hinv Hs Hc)
    as (s2 & d2 & Hw & Hc2 & Hcache & Hslots).
  fold names in Hslots.
  assert (Hload : fst (load_quests s2)
                  = Ok (flat_map resolve_slot
                          (map (fun i => nth i names (PyStr "")) (seq 0 6)))).
  { rewrite (load_quests_cached _ _ _ _ _ _ _ _ Hcache Hc2
               (Hslots 0%nat ltac:(lia)) (Hslots 1%nat ltac:(lia))
               (Hslots 2%nat ltac:(lia)) (Hslots 3%nat ltac:(lia))
               (Hslots 4%nat ltac:(lia)) (Hslots 5%nat ltac:(lia))).
    reflexivity. }
  assert (Hload' : fst (load_quests s2) = Ok (flat_map resolve_slot names)).
  { rewrite Hload, resolve_short_list; [reflexivity|].
    unfold names. now rewrite length_map. }
  exists s2, d2.
  split; [exact Hw|]. split; [exact Hcache|]. split; [exact Hslots|].
  split.
  { intros i [Hge Hlt]. rewrite (Hslots i Hlt). f_equal.
    apply nth_overflow. unfold names. now rewrite length_map. }
  split.
  { intros -> slot Hin.
    repeat (destruct Hin as [<- | Hin];
            [ first [ exact (Hslots 0%nat ltac:(lia))
                    | exact (Hslots 1%nat ltac:(lia))
                    | exact (Hslots 2%nat ltac:(lia))
                    | exact (Hslots 3%nat ltac:(lia))
                    | exact (Hslots 4%nat ltac:(lia))
                    | exact (Hslots 5%nat ltac:(lia)) ] |]).
    destruct Hin. }
  split; [exact Hload|]. split; [exact Hload'|].
  intros a b Hq Ha Hb Hfa Hfb. rewrite Hload'. unfold names. rewrite Hq.
  simpl. now rewrite (resolve_named a), (resolve_named b).
Qed.


(** C6. On a bound StoredDailyActivity whose snapshot reads, the snapshot
    read has [total] equal to 500, and so does the attribute, whatever
    value hydration took from the tree; [set(current)] succeeds and leaves
    [current] as given and [total] equal to 500, in the snapshot and
    through the attributes. *)
Theorem daily_activity_total s d s1 :
  reachable s ->
  __class__ s = StoredDailyActivity ->
  _stored s = (Ok d, s1) ->
  dict_get d "total" = Some (PyInt 500) /\
  fst (__getattribute__ "total" s) = Ok (PyInt 500) /\
  forall current,
  exists s2 d2,
    StoredDailyActivity_set current s = (Ok tt, s2) /\
    _stored_cache s2 = Some d2 /\
    dict_get d2 "current" = Some current /\
    dict_get d2 "total" = Some (PyInt 500) /\
    fst (__getattribute__ "current" s2) = Ok current /\
    fst (__getattribute__ "total" s2) = Ok (PyInt 500).
Proof using Type multi_set_enter_data.
  intros Hr Hc Hs.
  pose proof (reachable_inv _ Hr) as Hinv.
  destruct (stored_ok _ _ _ Hinv Hs) as (_ & _ & Hb & Htotal).
  specialize (Htotal Hc).
  assert (Hin : forall s' attr, __class__ s' = StoredDailyActivity ->
                                In attr ["current"; "total"] ->
                                In attr (dict_keys (_attrs s'))).
  { intros s' attr Hc' Hattr. unfold _attrs. rewrite Hc'. apply dict_mem_In.
    repeat (destruct Hattr as [<- | Hattr]; [reflexivity|]). destruct Hattr. }
  split; [exact Htotal|]. split.
  { destruct (getattribute_ok _ _ _ "total" Hinv Hs) as (v & Hv & Hget).
    - apply Hin; simpl; logic.
    - rewrite Hget. simpl. congruence. }
  intros current.
  destruct (_config s) as [config|] eqn:Hcfg; [|now elim Hb].
  pose proof (stored_inside_scope _ _ _ _ Hcfg Hs) as Hs'.
  set (sa := set_config s (snd (multi_set_enter config))) in *.
  assert (Hinva : inv sa) by now apply inv_set_config.
  assert (Hca : __class__ sa = StoredDailyActivity) by exact Hc.
  (* self.current = current *)
  destruct (setattr_ok _ _ _ "current" current Hinva Hs')
    as (config1 & _ & Hset1); [apply Hin; simpl; logic|].
  set (d1 := stamped sa d "current" current) in *.
  set (sb := after_set _ config1 d1) in *.
  assert (Hinvb : inv sb).
  { pose proof (stable_setattr "current" current sa) as (_ & _ & _ & H).
    rewrite Hset1 in H. now apply H. }
  assert (Hcb : __class__ sb = StoredDailyActivity).
  { pose proof (stored_frame s) as (Hc1 & _). rewrite Hs in Hc1.
    unfold sb. rewrite after_set_class. simpl in *. congruence. }
  assert (Hsb : _stored sb
                = (Ok (dict_set d1 "total" (PyInt 500)),
                   set_cache sb (dict_set d1 "total" (PyInt 500))))
    by (apply stored_cached_activity; [apply after_set_cache | exact Hcb]).
  (* self.total = 500 *)
  destruct (setattr_ok _ _ _ "total" (PyInt 500) Hinvb Hsb)
    as (config2 & _ & Hset2); [apply Hin; simpl; logic|].
  set (d2 := stamped sb (dict_set d1 "total" (PyInt 500)) "total" (PyInt 500))
    in *.
  assert (Hbody : (__setattr__ "current" current ;;
                   __setattr__ "total" (PyInt 500)) sa
                  = (Ok tt, after_set
                              (set_cache sb (dict_set d1 "total" (PyInt 500)))
                              config2 d2))
    by (unfold bind; now rewrite Hset1, Hset2).
  destruct (with_multi_set_result _ _ _ _ _ Hcfg Hbody)
    as (s2 & Hw & Hcache2 & Hc2).
  rewrite after_set_cache in Hcache2. rewrite after_set_class in Hc2.
  simpl in Hc2.
  assert (Hcur : dict_get d2 "current" = Some current).
  { unfold d2. rewrite stamped_get_other by reflexivity.
    rewrite dict_get_set_other by reflexivity. apply stamped_get_same. }
  assert (Htot : dict_get d2 "total" = Some (PyInt 500))
    by apply stamped_get_same.
  exists s2, d2.
  split; [exact Hw|]. split; [exact Hcache2|].
  split; [exact Hcur|]. split; [exact Htot|].
  assert (Hc2' : __class__ s2 = StoredDailyActivity) by congruence.
  split.
  - apply (getattribute_cached_activity _ _ _ _ Hcache2 Hc2').
    + apply Hin; [exact Hc2' | simpl; logic].
    + now rewrite dict_get_set_other by reflexivity.
  - apply (getattribute_cached_activity _ _ _ _ Hcache2 Hc2').
    + apply Hin; [exact Hc2' | simpl; logic].
    + apply dict_get_set_same.
Qed.

(** ** Hydration and persisted values *)

(** A value of the wrong type is replaced by the default, with a warning. *)
Lemma validate_mismatch attr default value s :
  String.eqb attr "time" = false ->
  isinstance_type_of value default = false ->
  validate attr default value s
  = (Ok default, emit s (Warning (_name s) attr value default)).
Proof.
  intros Ht Hi. unfold validate. now rewrite Ht, Hi.
Qed.

(** A time string that does not parse is replaced by the default, with a
    warning. *)
Lemma validate_unparseable default text s :
  fromisoformat text = None ->
  validate "time" default (PyStr text) s
  = (Ok default, emit s (Warning (_name s) "time" (PyStr text) default)).
Proof.
  intros Hp. unfold validate, try_except, py_fromisoformat. simpl.
  now rewrite Hp.
Qed.

(** A time that is neither a datetime nor a string is not caught. *)
Lemma validate_time_type_error default value s :
  isinstance_datetime value = false ->
  (forall text, value <> PyStr text) ->
  validate "time" default value s = (Raise TypeError, s).
Proof.
  intros Hd Hs. unfold validate, try_except, py_fromisoformat. simpl.
  rewrite Hd. simpl. destruct value; try reflexivity. now elim (Hs s0).
Qed.

(** Over a mapping whose [time], if any, is a datetime or a string,
    hydration returns. *)
Lemma hydrate_loop_returns m items :
  (forall v, dict_get m "time" = Some v ->
             isinstance_datetime v = true \/ exists text, v = PyStr text) ->
  (forall default, In ("time", default) items ->
                   isinstance_datetime default = true) ->
  forall out s, exists d, fst (hydrate_loop (PyDict m) items out s) = Ok d.
Proof.
  intros Hm. induction items as [|[attr default] items IH]; intros Hdef out s.
  - simpl. eauto.
  - simpl. unfold bind. simpl.
    assert (Hv : exists v, fst (validate attr default
                                  match dict_get m attr with
                                  | Some v => v
                                  | None => default
                                  end s) = Ok v).
    { unfold validate, try_except, py_fromisoformat, bind, logger_warning,
        ret, raise.
      destruct (String.eqb attr "time") eqn:Ht.
      - apply String.eqb_eq in Ht. subst attr.
        destruct (dict_get m "time") as [v|] eqn:Hg.
        + destruct (Hm _ eq_refl) as [Hd | [text ->]].
          * rewrite Hd. simpl. eauto.
          * simpl. destruct (fromisoformat text); simpl; eauto.
        + rewrite (Hdef default) by now left. simpl. eauto.
      - destruct (negb (isinstance_type_of _ default)); simpl; eauto. }
    destruct Hv as [v Hv].
    destruct (validate _ _ _ s) as [[v'|e] s']; simpl in Hv; [|discriminate].
    apply IH. intros default' Hin. apply Hdef. now right.
Qed.

(** So does reading the snapshot of a bound record over such a mapping. *)
Lemma hydration_returns s config m :
  _config s = Some config ->
  deep_get (data config) (_key s) (PyDict []) = PyDict m ->
  (forall v, dict_get m "time" = Some v ->
             isinstance_datetime v = true \/ exists text, v = PyStr text) ->
  exists d, fst (_stored s) = Ok d.
Proof.
  intros Hcfg Hnode Hm.
  assert (Hb : exists d, fst (StoredBase__stored s) = Ok d).
  { unfold StoredBase__stored, hydrate.
    destruct (_stored_cache s) as [d|]; [simpl; eauto|].
    rewrite Hcfg, Hnode.
    destruct (hydrate_loop_returns m (_attrs s) Hm) with (out := @nil (string * pyval)) (s := s)
      as [d Hd].
    - intros default Hin. unfold _attrs in Hin.
      rewrite derive_attrs_shape in Hin.
      destruct Hin as [[= <-] | Hin].
      + destruct (dict_get (iter_attribute _) "time") eqn:E; [|reflexivity].
        destruct (__class__ s); rewrite class_time in E;
          now injection E as <-.
      + apply filter_not_time_In in Hin. now destruct Hin.
    - destruct (hydrate_loop _ _ _ s) as [[d'|e] s']; simpl in *;
        [eauto | discriminate]. }
  destruct Hb as [d Hd].
  unfold _stored, StoredDailyActivity__stored, bind, write_stored, ret.
  destruct (__class__ s); eauto.
  destruct (StoredBase__stored s) as [[d'|e] s']; simpl in *;
    [eauto | discriminate].
Qed.

(** Over a mapping whose [time] is neither, it raises TypeError. *)
Lemma hydration_time_type_error s config m value :
  _config s = Some config ->
  _stored_cache s = None ->
  deep_get (data config) (_key s) (PyDict []) = PyDict m ->
  dict_get m "time" = Some value ->
  isinstance_datetime value = false ->
  (forall text, value <> PyStr text) ->
  _stored s = (Raise TypeError, s).
Proof.
  intros Hcfg Hcache Hnode Hg Hd Hs.
  assert (Hb : StoredBase__stored s = (Raise TypeError, s)).
  { unfold StoredBase__stored, hydrate. rewrite Hcache, Hcfg, Hnode.
    unfold _attrs. rewrite derive_attrs_shape. simpl. unfold bind. simpl.
    rewrite Hg. now rewrite validate_time_type_error. }
  unfold _stored, StoredDailyActivity__stored, bind.
  destruct (__class__ s); try exact Hb. now rewrite Hb.
Qed.

(** C2, where the code departs from it. A bound record whose persisted
    node holds the integer 5 under [time]: reading the snapshot, reading an
    attribute and writing one all raise TypeError, since [_stored] only
    catches the ValueError of [datetime.fromisoformat]. *)
Theorem hydration_raises_on_integer_time c :
  let s := _bind corrupt_time_config (__init__ c "Daily.Quest") in
  fst (_stored s) = Raise TypeError /\
  fst (__getattribute__ "time" s) = Raise TypeError /\
  fst (__setattr__ "time" (PyDatetime DEFAULT_TIME) s) = Raise TypeError.
Proof.
  intros s.
  assert (Hs : _stored s = (Raise TypeError, s)).
  { apply (hydration_time_type_error s corrupt_time_config
             [("time", PyInt 5)] (PyInt 5)); try reflexivity.
    discriminate. }
  split; [now rewrite Hs|]. split.
  - rewrite getattribute_unfold by apply time_in_schema.
    unfold bind. now rewrite Hs.
  - now rewrite (setattr_raise _ _ _ _ _ Hs (time_in_schema s)).
Qed.

(** * More of the record layer *)

(** ** The name of a record *)

Lemma append_assoc (a b c : string) :
  ((a ++ b) ++ c = a ++ (b ++ c))%string.
Proof. induction a as [|ch a IH]; simpl; [reflexivity | now rewrite IH]. Qed.

Lemma concat_cons (sep x y : string) (l : list string) :
  String.concat sep (x :: y :: l)
  = (x ++ sep ++ String.concat sep (y :: l))%string.
Proof. reflexivity. Qed.

Lemma split_dot_nonempty key : split_dot key <> [].
Proof.
  destruct key as [|c rest]; simpl; [discriminate|].
  destruct (Ascii.eqb c "."); [discriminate|].
  destruct (split_dot rest); discriminate.
Qed.

Lemma split_dot_dot_free key :
  Forall (fun seg => ~ In "."%char (list_ascii_of_string seg)) (split_dot key).
Proof.
  induction key as [|c rest IH]; simpl.
  - constructor; [simpl; logic | constructor].
  - destruct (Ascii.eqb c ".") eqn:E.
    + constructor; [simpl; logic | exact IH].
    + apply Ascii.eqb_neq in E.
      destruct (split_dot rest) as [|seg segs].
      * constructor; [|constructor]. simpl. intros [H | []]. now elim E.
      * inversion IH as [|? ? Hseg Hsegs]; subst.
        constructor; [|exact Hsegs].
        simpl. intros [H | H]; [now elim E | now apply Hseg].
Qed.

(** Joining the segments with dots gives the key back. *)
Lemma split_dot_concat key : String.concat "." (split_dot key) = key.
Proof.
  induction key as [|c rest IH]; simpl; [reflexivity|].
  destruct (Ascii.eqb c ".") eqn:E.
  - apply Ascii.eqb_eq in E. subst c.
    pose proof (split_dot_nonempty rest) as Hne.
    destruct (split_dot rest) as [|seg segs]; [now elim Hne|].
    rewrite concat_cons, IH. reflexivity.
  - destruct (split_dot rest) as [|seg segs] eqn:Hs.
    + now elim (split_dot_nonempty rest).
    + destruct segs as [|seg' segs].
      * simpl in *. now rewrite IH.
      * rewrite concat_cons in *. rewrite <- IH. reflexivity.
Qed.

Lemma concat_last (segs : list string) :
  segs <> [] ->
  String.concat "." segs = last segs "" \/
  exists prefix,
    String.concat "." segs = (prefix ++ "." ++ last segs "")%string.
Proof.
  induction segs as [|x segs IH]; intros Hne; [now elim Hne|].
  destruct segs as [|y segs]; [now left|].
  right. destruct IH as [IH | [prefix IH]]; [discriminate| |].
  - exists x. rewrite concat_cons, IH. reflexivity.
  - exists (x ++ "." ++ prefix)%string.
    rewrite concat_cons, IH.
    change (last (x :: y :: segs) "") with (last (y :: segs) "").
    now rewrite !append_assoc.
Qed.

(** X1. The name of a record is the last dotted segment of its key: it
    holds no dot, and the key is the name itself or ends with a dot
    followed by the name. *)
Theorem name_is_last_segment s :
  ~ In "."%char (list_ascii_of_string (_name s)) /\
  (_key s = _name s \/
   exists prefix, _key s = (prefix ++ "." ++ _name s)%string).
Proof.
  unfold _name. split.
  - pose proof (split_dot_dot_free (_key s)) as Hfree.
    pose proof (split_dot_nonempty (_key s)) as Hne.
    rewrite Forall_forall in Hfree. apply Hfree.
    destruct (exists_last Hne) as (l & seg & ->).
    rewrite last_last. apply in_or_app. right. now left.
  - pose proof (concat_last _ (split_dot_nonempty (_key s))) as H.
    now rewrite split_dot_concat in H.
Qed.

(** ** The schema of any class *)

Lemma dict_get_Some_In {V : Type} (d : list (string * V)) k v :
  NoDup (dict_keys d) -> (dict_get d k = Some v <-> In (k, v) d).
Proof.
  induction d as [|[k' v'] d IH]; simpl; intros Hnd.
  - split; [discriminate | logic].
  - inversion Hnd as [|? ? Hfresh Hnd']; subst.
    destruct (String.eqb k k') eqn:E.
    + apply String.eqb_eq in E. subst k'. split.
      * intros [= ->]. now left.
      * intros [[= ->] | Hin]; [reflexivity|].
        exfalso. apply Hfresh. now apply (in_map fst) in Hin.
    + apply String.eqb_neq in E. rewrite (IH Hnd'). split.
      * now right.
      * intros [[= <- <-] | Hin]; [now elim E | assumption].
Qed.

Lemma dict_set_same {V : Type} (d : list (string * V)) k v :
  dict_get d k = Some v -> dict_set d k v = d.
Proof.
  induction d as [|[k' v'] d IH]; simpl; [discriminate|].
  destruct (String.eqb k k') eqn:E.
  - now intros [= ->].
  - intros H. now rewrite IH.
Qed.

(** The [time] member that [iter_attribute] yields, if any. *)
Lemma iter_attribute_time mro :
  dict_get (iter_attribute mro) "time"
  = match py_getattr mro "time" with
    | Some v => if is_function_or_property v then None else Some v
    | None => None
    end.
Proof.
  pose proof (iter_attribute_NoDup mro) as Hnd.
  destruct (dict_get (iter_attribute mro) "time") as [v|] eqn:E.
  - apply (dict_get_Some_In _ _ _ Hnd), iter_attribute_In in E.
    destruct E as (Hg & _ & Hf). now rewrite Hg, Hf.
  - destruct (py_getattr mro "time") as [v|] eqn:Hg; [|reflexivity].
    destruct (is_function_or_property v) eqn:Hf; [reflexivity|].
    assert (Hin : In ("time", v) (iter_attribute mro))
      by (apply iter_attribute_In; auto).
    apply (dict_get_Some_In _ _ _ Hnd) in Hin. congruence.
Qed.

(** X2. For any class, given by the bodies of its MRO: the derived schema
    starts with [time]; the default of [time] is the class's own [time]
    member when that is a value (not a function or a property), and
    DEFAULT_TIME otherwise; no name occurs twice or starts with an
    underscore; and the entries after [time] are exactly the other members,
    each with the value of the first body that binds it, that are public
    and are neither functions nor properties. *)
Theorem schema_of_any_class (mro : list namespace) :
  exists rest,
    derive_attrs mro
    = ("time",
       match py_getattr mro "time" with
       | Some v => if is_function_or_property v then PyDatetime DEFAULT_TIME
                   else v
       | None => PyDatetime DEFAULT_TIME
       end) :: rest /\
    NoDup ("time" :: dict_keys rest) /\
    (forall attr, In attr ("time" :: dict_keys rest) ->
                  startswith_underscore attr = false) /\
    forall attr value,
      In (attr, value) rest <->
      attr <> "time" /\
      py_getattr mro attr = Some value /\
      startswith_underscore attr = false /\
      is_function_or_property value = false.
Proof.
  exists (filter not_time (iter_attribute mro)).
  split; [|split; [|split]].
  - rewrite derive_attrs_shape, iter_attribute_time.
    destruct (py_getattr mro "time") as [v|]; [|reflexivity].
    now destruct (is_function_or_property v).
  - pose proof (derive_attrs_keys_NoDup mro) as Hnd.
    now rewrite derive_attrs_shape in Hnd.
  - intros attr Hin. apply (derive_attrs_public mro).
    now rewrite derive_attrs_shape.
  - intros attr value.
    rewrite filter_not_time_In, iter_attribute_In. logic.
Qed.

(** ** The snapshot, once read *)


Lemma set_cache_same s d : _stored_cache s = Some d -> set_cache s d = s.
Proof. destruct s. simpl. now intros ->. Qed.

(** Reading the snapshot again, in the state the first read leaves. *)
Lemma stored_again s d s1 :
  inv s -> _stored s = (Ok d, s1) -> _stored s1 = (Ok d, s1).
Proof.
  intros Hinv Hs.
  destruct (stored_ok _ _ _ Hinv Hs) as (Hcache & _ & _ & Htotal).
  pose proof (stored_frame s) as (Hc & _). rewrite Hs in Hc. simpl in Hc.
  destruct (__class__ s) eqn:Hcs;
    try (apply stored_cached; [exact Hcache | rewrite Hc; discriminate]).
  rewrite (stored_cached_activity _ _ Hcache Hc).
  rewrite (dict_set_same _ _ _ (Htotal eq_refl)).
  now rewrite (set_cache_same _ _ Hcache).
Qed.

(** X4. The snapshot is hydrated once: after a read that returned [d],
    every further read returns [d] and changes nothing (no warning is
    logged again), also after the record is bound to another config, whose
    tree is not consulted. *)
Theorem snapshot_read_once s d s1 :
  reachable s ->
  _stored s = (Ok d, s1) ->
  _stored s1 = (Ok d, s1) /\
  forall config, _stored (_bind config s1) = (Ok d, _bind config s1).
Proof.
  intros Hr Hs. pose proof (reachable_inv _ Hr) as Hinv.
  pose proof (stored_again _ _ _ Hinv Hs) as Hagain.
  split; [exact Hagain|]. intros config.
  assert (Hinv1 : inv s1).
  { pose proof (stable__stored s) as (_ & _ & _ & H).
    rewrite Hs in H. now apply H. }
  assert (Hinvb : inv (_bind config s1)) by now apply inv_set_config.
  destruct (stored_ok _ _ _ Hinv1 Hagain) as (Hcache & _ & _ & Htotal).
  destruct (__class__ s1) eqn:Hc;
    try (apply stored_cached; [exact Hcache | simpl; rewrite Hc; discriminate]).
  rewrite (stored_cached_activity (_bind config s1) d Hcache Hc).
  rewrite (dict_set_same _ _ _ (Htotal eq_refl)).
  now rewrite (set_cache_same (_bind config s1) d Hcache).
Qed.

(** ** What hydration returns *)

Lemma isinstance_type_of_refl v : isinstance_type_of v v = true.
Proof. destruct v; simpl; try reflexivity. apply String.eqb_refl. Qed.

Lemma isinstance_type_of_datetime v t :
  isinstance_type_of v (PyDatetime t) = true -> isinstance_datetime v = true.
Proof. destruct v; simpl; congruence. Qed.

(** One turn of the loop, on a raw value that hydration can read. *)
Lemma validate_hydrated m item s :
  (fst item = "time" ->
   isinstance_datetime (raw_value m item) = true \/
   exists text, raw_value m item = PyStr text) ->
  validate (fst item) (snd item) (raw_value m item) s
  = (Ok (hydrated m item),
     if degraded m item then emit s (warning_of s m item) else s).
Proof.
  intros Htime.
  unfold validate, hydrated, degraded, warning_of, try_except,
    py_fromisoformat, bind, logger_warning, ret, raise.
  destruct (String.eqb (fst item) "time") eqn:E.
  - apply String.eqb_eq in E.
    destruct (Htime E) as [Hd | [text Ht]].
    + rewrite Hd. simpl. destruct (raw_value m item); try discriminate.
      reflexivity.
    + rewrite Ht. simpl. destruct (fromisoformat text); reflexivity.
  - destruct (isinstance_type_of (raw_value m item) (snd item)); reflexivity.
Qed.

(** The loop over a mapping: the entries are appended in order, each with
    the value kept for it, and one warning is logged for each entry that is
    replaced. *)
Lemma hydrate_loop_exact m items :
  forall out s,
    NoDup (dict_keys items) ->
    (forall a, In a (dict_keys items) -> ~ In a (dict_keys out)) ->
    (forall item, In item items -> fst item = "time" ->
                  isinstance_datetime (raw_value m item) = true \/
                  exists text, raw_value m item = PyStr text) ->
    fst (hydrate_loop (PyDict m) items out s)
    = Ok (out ++ map (fun item => (fst item, hydrated m item)) items)%list /\
    log (snd (hydrate_loop (PyDict m) items out s))
    = (log s ++ map (warning_of s m) (filter (degraded m) items))%list.
Proof.
  induction items as [|[attr default] items IH]; intros out s Hnd Hdisj Htime.
  - simpl. now rewrite !app_nil_r.
  - inversion Hnd as [|? ? Hfresh Hnd']; subst.
    set (s' := if degraded m (attr, default)
               then emit s (warning_of s m (attr, default)) else s).
    assert (Hstep : hydrate_loop (PyDict m) ((attr, default) :: items) out s
                    = hydrate_loop (PyDict m) items
                        (out ++ [(attr, hydrated m (attr, default))])%list s').
    { cbn [hydrate_loop stored_get]. unfold bind, ret.
      change (match dict_get m attr with Some v => v | None => default end)
        with (raw_value m (attr, default)).
      pose proof (validate_hydrated m (attr, default) s
                    (Htime _ (or_introl eq_refl))) as Hv.
      cbn [fst snd] in Hv. rewrite Hv.
      now rewrite dict_set_fresh by (apply Hdisj; now left). }
    rewrite Hstep.
    destruct (IH (out ++ [(attr, hydrated m (attr, default))])%list s' Hnd')
      as [Hfst Hlog].
    + intros a Ha. unfold dict_keys. rewrite map_app, in_app_iff. simpl.
      intros [Hin | [<- | []]].
      * revert Hin. apply Hdisj. now right.
      * contradiction.
    + intros item Hin. apply Htime. now right.
    + split.
      * rewrite Hfst. cbn [map fst]. now rewrite <- app_assoc.
      * rewrite Hlog. cbn [filter].
        assert (Hw : map (warning_of s' m) (filter (degraded m) items)
                     = map (warning_of s m) (filter (degraded m) items)).
        { apply map_ext. intros item. unfold warning_of, _name, s'.
          now destruct (degraded m (attr, default)). }
        rewrite Hw. unfold s'.
        destruct (degraded m (attr, default)); simpl; [|reflexivity].
        now rewrite <- app_assoc.
Qed.

(** The schema of a record type of the module. *)
Lemma attrs_shape s :
  _attrs s
  = ("time", PyDatetime DEFAULT_TIME)
      :: filter not_time (iter_attribute (class_mro (__class__ s))).
Proof. unfold _attrs. now rewrite derive_attrs_shape, class_time. Qed.

Lemma attrs_time_item s item :
  In item (_attrs s) -> fst item = "time" ->
  item = ("time", PyDatetime DEFAULT_TIME).
Proof.
  rewrite attrs_shape. intros [<- | Hin] Ht; [reflexivity|].
  destruct item as [attr value]. apply filter_not_time_In in Hin.
  simpl in Ht. now destruct Hin.
Qed.

Lemma attrs_time_readable s m item :
  readable_raw_time m ->
  In item (_attrs s) -> fst item = "time" ->
  isinstance_datetime (raw_value m item) = true \/
  exists text, raw_value m item = PyStr text.
Proof.
  intros Hm Hin Ht. rewrite (attrs_time_item _ _ Hin Ht).
  unfold raw_value. simpl.
  destruct (dict_get m "time") as [v|] eqn:E; [now apply Hm | now left].
Qed.

Lemma base_stored_exact s config m :
  _config s = Some config ->
  _stored_cache s = None ->
  deep_get (data config) (_key s) (PyDict []) = PyDict m ->
  readable_raw_time m ->
  exists s1,
    StoredBase__stored s
    = (Ok (map (fun item => (fst item, hydrated m item)) (_attrs s)), s1) /\
    log s1
    = (log s ++ map (warning_of s m) (filter (degraded m) (_attrs s)))%list.
Proof.
  intros Hcfg Hcache Hnode Hm.
  unfold StoredBase__stored, hydrate. rewrite Hcache, Hcfg, Hnode.
  destruct (hydrate_loop_exact m (_attrs s) [] s) as [Hfst Hlog].
  - apply derive_attrs_keys_NoDup.
  - intros a _ [].
  - intros item. now apply attrs_time_readable.
  - destruct (hydrate_loop (PyDict m) (_attrs s) [] s) as [r s'].
    simpl in Hfst, Hlog. subst r. eexists. split; [reflexivity|].
    exact Hlog.
Qed.

(** X5. The first read of the snapshot of a bound record, over a mapping
    whose [time], if any, is a datetime or a string: the snapshot has the
    schema's entries in schema order, each with the raw value when that has
    the type of the default (a string [time] being parsed), and with the
    default otherwise or when the mapping lacks the attribute; exactly one
    warning is logged for each replaced entry, in schema order. For a
    StoredDailyActivity, [total] is then set to 500. *)
Theorem hydration_exact s config m :
  _config s = Some config ->
  _stored_cache s = None ->
  deep_get (data config) (_key s) (PyDict []) = PyDict m ->
  readable_raw_time m ->
  exists s1,
    _stored s = (Ok (hydrated_snapshot s m), s1) /\
    log s1
    = (log s ++ map (warning_of s m) (filter (degraded m) (_attrs s)))%list.
Proof.
  intros Hcfg Hcache Hnode Hm.
  destruct (base_stored_exact _ _ _ Hcfg Hcache Hnode Hm) as (s1 & Hb & Hlog).
  unfold _stored, hydrated_snapshot, StoredDailyActivity__stored, bind,
    write_stored, ret.
  destruct (__class__ s); try (exists s1; split; [exact Hb | exact Hlog]).
  rewrite Hb. eexists. split; [reflexivity | exact Hlog].
Qed.

Lemma map_raw_snapshot (schema d0 : dict) :
  dict_keys d0 = dict_keys schema ->
  NoDup (dict_keys schema) ->
  map (fun item => (fst item, raw_value d0 item)) schema = d0.
Proof.
  revert d0. induction schema as [|[k x] schema IH]; intros d0 Hk Hnd.
  - destruct d0; [reflexivity | discriminate].
  - destruct d0 as [|[k' v] d0]; [discriminate|].
    injection Hk as -> Hk. inversion Hnd as [|? ? Hfresh Hnd']; subst.
    cbn [map fst]. unfold raw_value at 1. cbn [dict_get fst snd].
    rewrite String.eqb_refl. f_equal.
    transitivity (map (fun item => (fst item, raw_value d0 item)) schema);
      [|now apply IH].
    apply map_ext_in. intros [a y] Hin. unfold raw_value. cbn [dict_get fst snd].
    destruct (String.eqb a k) eqn:E; [|reflexivity].
    apply String.eqb_eq in E. subst a. elim Hfresh.
    now apply (in_map fst) in Hin.
Qed.

Lemma hydrated_typed m item :
  (fst item = "time" -> exists t, snd item = PyDatetime t) ->
  isinstance_type_of (raw_value m item) (snd item) = true ->
  hydrated m item = raw_value m item /\ degraded m item = false.
Proof.
  intros Htime Hi. unfold hydrated, degraded. rewrite Hi.
  destruct (String.eqb (fst item) "time") eqn:E; [|now split].
  apply String.eqb_eq in E. destruct (Htime E) as [t Ht].
  rewrite Ht in Hi.
  destruct (raw_value m item); now split.
Qed.

Lemma hydrated_snapshot_typed s m :
  (forall item, In item (_attrs s) ->
                isinstance_type_of (raw_value m item) (snd item) = true) ->
  map (fun item => (fst item, hydrated m item)) (_attrs s)
  = map (fun item => (fst item, raw_value m item)) (_attrs s) /\
  filter (degraded m) (_attrs s) = [].
Proof.
  intros Hty.
  assert (Htime : forall item, In item (_attrs s) -> fst item = "time" ->
                               exists t, snd item = PyDatetime t).
  { intros item Hin Ht. rewrite (attrs_time_item _ _ Hin Ht). simpl. eauto. }
  induction (_attrs s) as [|item l IH]; [now split|].
  destruct (hydrated_typed m item) as [Hh Hd];
    [apply Htime; now left | apply Hty; now left|].
  destruct IH as [IHm IHf];
    [intros i Hi; apply Hty; now right
    |intros i Hi; apply Htime; now right|].
  cbn [map filter]. now rewrite Hh, Hd, IHm, IHf.
Qed.

(** X6. A bound record over a node that is missing or empty reads the
    schema defaults, and logs nothing. *)
Theorem hydration_of_empty_node s config :
  _config s = Some config ->
  _stored_cache s = None ->
  deep_get (data config) (_key s) (PyDict []) = PyDict [] ->
  exists s1,
    _stored s
    = (Ok (match __class__ s with
           | StoredDailyActivity => dict_set (_attrs s) "total" (PyInt 500)
           | _ => _attrs s
           end), s1) /\
    log s1 = log s.
Proof.
  intros Hcfg Hcache Hnode.
  destruct (hydration_exact _ _ [] Hcfg Hcache Hnode) as (s1 & Hs & Hlog).
  { intros v. discriminate. }
  destruct (hydrated_snapshot_typed s []) as [Hm Hf].
  { intros item _. unfold raw_value. simpl. apply isinstance_type_of_refl. }
  exists s1. split.
  - rewrite Hs. unfold hydrated_snapshot. rewrite Hm.
    assert (Hid : map (fun item : string * pyval => (fst item, raw_value [] item))
                    (_attrs s) = _attrs s).
    { rewrite <- (map_id (_attrs s)) at 2. apply map_ext.
      now intros [a v]. }
    now rewrite Hid.
  - rewrite Hlog, Hf. apply app_nil_r.
Qed.

(** X7. A snapshot that went to the tree is read back as it is: over a
    node that holds the schema's keys in schema order with values of the
    types of the defaults, the first read of a bound record returns the
    node itself and logs nothing (for a StoredDailyActivity, with [total]
    set to 500). *)
Theorem hydration_round_trip s config d0 :
  _config s = Some config ->
  _stored_cache s = None ->
  deep_get (data config) (_key s) (PyDict []) = PyDict d0 ->
  dict_keys d0 = dict_keys (_attrs s) ->
  (forall attr default v,
      In (attr, default) (_attrs s) -> dict_get d0 attr = Some v ->
      isinstance_type_of v default = true) ->
  exists s1,
    _stored s
    = (Ok (match __class__ s with
           | StoredDailyActivity => dict_set d0 "total" (PyInt 500)
           | _ => d0
           end), s1) /\
    log s1 = log s.
Proof.
  intros Hcfg Hcache Hnode Hkeys Hty.
  assert (Htyped : forall item, In item (_attrs s) ->
                     isinstance_type_of (raw_value d0 item) (snd item) = true).
  { intros [attr default] Hin. unfold raw_value. simpl.
    destruct (dict_get d0 attr) as [v|] eqn:E;
      [now apply (Hty attr default) | apply isinstance_type_of_refl]. }
  destruct (hydration_exact _ _ d0 Hcfg Hcache Hnode) as (s1 & Hs & Hlog).
  { intros v Hv. left.
    apply (isinstance_type_of_datetime v DEFAULT_TIME).
    apply (Hty "time" (PyDatetime DEFAULT_TIME)); [|exact Hv].
    rewrite attrs_shape. now left. }
  destruct (hydrated_snapshot_typed s d0 Htyped) as [Hm Hf].
  exists s1. split.
  - rewrite Hs. unfold hydrated_snapshot. rewrite Hm.
    rewrite (map_raw_snapshot _ _ Hkeys (derive_attrs_keys_NoDup _)).
    reflexivity.
  - rewrite Hlog, Hf. apply app_nil_r.
Qed.

(** ** When hydration fails *)

Lemma base_stored_not_mapping s config :
  _config s = Some config ->
  _stored_cache s = None ->
  (forall m, deep_get (data config) (_key s) (PyDict []) <> PyDict m) ->
  StoredBase__stored s = (Raise AttributeError, s).
Proof.
  intros Hcfg Hcache Hnode.
  unfold StoredBase__stored, hydrate. rewrite Hcache, Hcfg, attrs_shape.
  cbn [hydrate_loop]. unfold bind.
  destruct (deep_get (data config) (_key s) (PyDict [])) as
    [ | | | | | | |m| | | | ]; try reflexivity.
  now elim (Hnode m).
Qed.

Lemma stored_of_base_raise s e :
  StoredBase__stored s = (Raise e, s) -> _stored s = (Raise e, s).
Proof.
  intros Hb. unfold _stored, StoredDailyActivity__stored, bind.
  destruct (__class__ s); try exact Hb. now rewrite Hb.
Qed.

(** X8. Hydration of a bound record fails in two cases only, and then
    leaves the record as it was, with nothing cached and nothing logged:
    with AttributeError when the node at the key is not a mapping, and
    with TypeError when the mapping holds under [time] a value that is
    neither a datetime nor a string. *)
Theorem hydration_failure s config :
  _config s = Some config ->
  _stored_cache s = None ->
  let node := deep_get (data config) (_key s) (PyDict []) in
  ((forall m, node <> PyDict m) -> _stored s = (Raise AttributeError, s)) /\
  (forall e s1,
      _stored s = (Raise e, s1) ->
      s1 = s /\
      ((e = AttributeError /\ forall m, node <> PyDict m) \/
       (e = TypeError /\
        exists m v,
          node = PyDict m /\ dict_get m "time" = Some v /\
          isinstance_datetime v = false /\ forall text, v <> PyStr text))).
Proof.
  intros Hcfg Hcache node.
  assert (Hnot : (forall m, node <> PyDict m) ->
                 _stored s = (Raise AttributeError, s)).
  { intros Hnode. apply stored_of_base_raise.
    now apply (base_stored_not_mapping s config). }
  split; [exact Hnot|].
  intros e s1 Hraise.
  destruct node as [ | | | | | | |m| | | | ] eqn:Hnode;
    try (rewrite Hnot in Hraise by discriminate;
         injection Hraise as <- <-; split; [reflexivity|];
         left; split; [reflexivity | discriminate]).
  assert (Hok : readable_raw_time m -> False).
  { intros Hm.
    destruct (hydration_exact _ _ m Hcfg Hcache Hnode Hm) as (s' & Hs & _).
    congruence. }
  destruct (dict_get m "time") as [v|] eqn:Hv.
  - assert (Hbad : isinstance_datetime v = false /\
                   forall text, v <> PyStr text).
    { destruct v; try (split; [reflexivity | discriminate]).
      - elim Hok. intros v' Hv'. right. exists s0. congruence.
      - elim Hok. intros v' Hv'. left. now replace v' with (PyDatetime t)
          by congruence. }
    destruct Hbad as [Hd Hs].
    rewrite (hydration_time_type_error _ _ _ _ Hcfg Hcache Hnode Hv Hd Hs)
      in Hraise.
    injection Hraise as <- <-. split; [reflexivity|].
    right. split; [reflexivity|]. exists m, v. auto.
  - elim Hok. intros v' Hv'. congruence.
Qed.

(** ** What reading leaves alone *)

Lemma quiet_refl s : quiet s s.
Proof.
  unfold quiet. repeat split. exists []. split; [now rewrite app_nil_r|].
  constructor.
Qed.

Lemma quiet_trans s1 s2 s3 : quiet s1 s2 -> quiet s2 s3 -> quiet s1 s3.
Proof.
  intros (Hc & Ht & Hd & w & Hl & Hw) (Hc' & Ht' & Hd' & w' & Hl' & Hw').
  unfold quiet. repeat split; try congruence.
  exists (w ++ w')%list. split.
  - now rewrite Hl', Hl, app_assoc.
  - now apply Forall_app.
Qed.



Lemma read_only_bind {A B : Type} (m : M A) (k : A -> M B) :
  read_only m -> (forall a, read_only (k a)) -> read_only (bind m k).
Proof.
  intros Hm Hk s. unfold bind. specialize (Hm s).
  destruct (m s) as [[a|e] s']; simpl in *; [|assumption].
  eapply quiet_trans; [eassumption | apply Hk].
Qed.

Lemma quiet_emit_warning s name attr value default :
  quiet s (emit s (Warning name attr value default)).
Proof.
  unfold quiet. simpl. repeat split.
  eexists. split; [reflexivity|]. now repeat constructor.
Qed.

Lemma validate_quiet attr default value s :
  quiet s (snd (validate attr default value s)).
Proof.
  unfold validate, try_except, py_fromisoformat, bind, logger_warning,
    ret, raise.
  destruct (String.eqb attr "time").
  - destruct (negb (isinstance_datetime value)); [|apply quiet_refl].
    destruct value; simpl; try apply quiet_refl.
    destruct (fromisoformat s0); simpl;
      [apply quiet_refl | apply quiet_emit_warning].
  - destruct (negb (isinstance_type_of value default)); simpl;
      [apply quiet_emit_warning | apply quiet_refl].
Qed.

Lemma hydrate_loop_quiet stored items :
  forall out s, quiet s (snd (hydrate_loop stored items out s)).
Proof.
  induction items as [|[attr default] items IH]; intros out s; simpl.
  - apply quiet_refl.
  - unfold bind. destruct stored; simpl; try apply quiet_refl.
    pose proof (validate_quiet attr default
                  match dict_get d attr with Some v => v | None => default end
                  s) as Hv.
    destruct (validate _ _ _ s) as [[v|e] s']; simpl in *; [|assumption].
    eapply quiet_trans; [eassumption | apply IH].
Qed.

Lemma quiet_set_cache s s' d : quiet s s' -> quiet s (set_cache s' d).
Proof. unfold quiet. simpl. auto. Qed.

Lemma read_only_stored : read_only _stored.
Proof.
  intros s.
  assert (Hb : quiet s (snd (StoredBase__stored s))).
  { unfold StoredBase__stored, hydrate.
    destruct (_stored_cache s); [apply quiet_refl|].
    destruct (_config s) as [config|]; [|apply quiet_refl].
    pose proof (hydrate_loop_quiet
                  (deep_get (data config) (_key s) (PyDict []))
                  (_attrs s) [] s) as Hl.
    destruct (hydrate_loop _ _ _ s) as [[d|e] s']; simpl in *;
      [now apply quiet_set_cache | assumption]. }
  unfold _stored, StoredDailyActivity__stored, bind, write_stored, ret.
  destruct (__class__ s); try exact Hb.
  destruct (StoredBase__stored s) as [[d|e] s']; simpl in *;
    [now apply quiet_set_cache | assumption].
Qed.

Lemma read_only_getattribute item : read_only (__getattribute__ item).
Proof.
  intros s. unfold __getattribute__.
  destruct (negb (startswith_underscore item) && dict_mem item (_attrs s)).
  - apply (read_only_bind _stored (fun stored => py_getitem stored item)).
    + apply read_only_stored.
    + intros stored. unfold py_getitem.
      destruct (dict_get stored item); intros s'; apply quiet_refl.
  - unfold object_getattribute.
    destruct (dict_get (__dict__ s) item); [apply quiet_refl|].
    destruct (py_getattr _ item); apply quiet_refl.
Qed.


(** ** More on readable_time *)




Lemma timestamp_le (a b : datetime) :
  a <= b -> (timestamp a <= timestamp b)%Q.
Proof. intros H. unfold timestamp, Qle. simpl. lia. Qed.

(** The [time] attribute and the clock, in the state [__setattr__] leaves. *)
Lemma time_after_set s1 config stored v :
  dict_get stored "time" = Some v ->
  exists s2',
    __getattribute__ "time" (after_set s1 config stored) = (Ok v, s2') /\
    ticks s2' = S (ticks s1).
Proof.
  intros Hv.
  pose proof (get_after_set s1 config stored "time" v Hv (time_in_schema s1))
    as Hget.
  rewrite andb_false_r in Hget.
  pose proof (read_only_getattribute "time" (after_set s1 config stored))
    as (_ & Ht & _).
  destruct (__getattribute__ "time" (after_set s1 config stored)) as [r s2'].
  simpl in *. subst r. exists s2'. split; [reflexivity|].
  rewrite Ht. unfold after_set. now destruct (auto_update config).
Qed.

(** X11. A record stamped by a write never reads as minutes, hours or days
    old: after a write to an attribute other than [time], if [time.time()]
    has not gone back behind the [datetime.now()] of the write,
    [readable_time] answers JustNow or TimeError, and TimeError as soon as
    more than one second has passed. *)
Theorem readable_time_after_write s d s1 key value :
  reachable s ->
  _stored s = (Ok d, s1) ->
  In key (dict_keys (_attrs s)) ->
  key <> "time" ->
  exists s2,
    __setattr__ key value s = (Ok tt, s2) /\
    ((timestamp (datetime_now (ticks s)) <= time_time (ticks s2))%Q ->
     fst (readable_time s2) = Ok ("", "JustNow") \/
     fst (readable_time s2) = Ok ("", "TimeError")) /\
    ((timestamp (datetime_now (ticks s)) + 1 < time_time (ticks s2))%Q ->
     fst (readable_time s2) = Ok ("", "TimeError")).
Proof.
  intros Hr Hs Hin Hne.
  pose proof (reachable_inv _ Hr) as Hinv.
  destruct (setattr_ok _ _ _ _ value Hinv Hs Hin) as (config & Hcfg & Hset).
  assert (E : String.eqb "time" key = false)
    by (apply String.eqb_neq; congruence).
  destruct (time_after_set s1 config (stamped s d key value) _
              (stamped_get_time s d key value E)) as (s2' & Hget & Hticks).
  set (s2 := after_set s1 config (stamped s d key value)) in *.
  assert (Ht2 : ticks s2 = S (ticks s1))
    by (unfold s2, after_set; now destruct (auto_update config)).
  exists s2. split; [exact Hset|].
  rewrite (readable_time_unfold _ _ _ Hget). rewrite Hticks, <- Ht2.
  destruct (replace_microsecond_0_spec (datetime_now (ticks s))) as [_ [Hb _]].
  apply timestamp_le in Hb.
  set (stamp := timestamp (replace_microsecond_0 (datetime_now (ticks s)))) in *.
  set (clock := time_time (ticks s2)) in *.
  cbv zeta. split; intros Hclock;
    repeat (destruct (Qlt_le_dec _ _); try (exfalso; lra)); auto.
Qed.

(** X12. After [time] itself is set to a value that is not a datetime,
    [readable_time] raises AttributeError: the value has no [timestamp]. *)
Theorem readable_time_needs_datetime s d s1 value :
  reachable s ->
  _stored s = (Ok d, s1) ->
  isinstance_datetime value = false ->
  exists s2,
    __setattr__ "time" value s = (Ok tt, s2) /\
    fst (readable_time s2) = Raise AttributeError.
Proof.
  intros Hr Hs Hv.
  pose proof (reachable_inv _ Hr) as Hinv.
  destruct (setattr_ok _ _ _ "time" value Hinv Hs (time_in_schema s))
    as (config & Hcfg & Hset).
  destruct (time_after_set s1 config (stamped s d "time" value) _
              (stamped_get_same s d "time" value)) as (s2' & Hget & _).
  eexists. split; [exact Hset|].
  unfold readable_time, bind. rewrite Hget.
  destruct value; try reflexivity. discriminate.
Qed.

(** ** More on writes *)

(** X13. A write changes one attribute and the stamp, nothing else: after
    [key] is set, any other attribute than [time] reads as it did in the
    snapshot before. *)
Theorem setattr_leaves_others s d s1 key value item v :
  reachable s ->
  _stored s = (Ok d, s1) ->
  In key (dict_keys (_attrs s)) ->
  item <> key ->
  item <> "time" ->
  dict_get d item = Some v ->
  exists s2,
    __setattr__ key value s = (Ok tt, s2) /\
    fst (__getattribute__ item s2) = Ok v.
Proof.
  intros Hr Hs Hin Hkey Htime Hv.
  pose proof (reachable_inv _ Hr) as Hinv.
  destruct (setattr_ok _ _ _ _ value Hinv Hs Hin) as (config & Hcfg & Hset).
  destruct (stored_ok _ _ _ Hinv Hs) as (_ & Hkeys & _ & Htotal).
  pose proof (stored_frame s) as (Hc & _). rewrite Hs in Hc. simpl in Hc.
  assert (Hitem : In item (dict_keys (_attrs s1))).
  { unfold _attrs in *. rewrite Hc, <- Hkeys.
    destruct (in_dec string_dec item (dict_keys d)) as [H|H]; [exact H|].
    apply dict_get_None in H. congruence. }
  assert (Hget : dict_get (stamped s d key value) item = Some v).
  { rewrite stamped_get_other; [exact Hv | |]; now apply String.eqb_neq. }
  exists (after_set s1 config (stamped s d key value)).
  split; [exact Hset|].
  rewrite (get_after_set _ _ _ _ _ Hget Hitem). rewrite Hc.
  destruct (__class__ s) eqn:Hcs; try reflexivity.
  destruct (String.eqb item "total") eqn:E; [|reflexivity].
  apply String.eqb_eq in E. subst item. simpl.
  specialize (Htotal eq_refl). congruence.
Qed.

(** X14. A write registers under the record's own key only: the config
    that [__setattr__] leaves, or hands to [update()] when [auto_update] is
    on, has the tree and the flag it had, the snapshot under the record's
    key in [modified], and every other entry of [modified] as before. *)
Theorem setattr_registers_own_key s d s1 config key value :
  reachable s ->
  _stored s = (Ok d, s1) ->
  _config s = Some config ->
  In key (dict_keys (_attrs s)) ->
  exists s2 registered,
    __setattr__ key value s = (Ok tt, s2) /\
    _config s2
    = Some (if auto_update config
            then update (_stored_cache s2) registered
            else registered) /\
    data registered = data config /\
    auto_update registered = auto_update config /\
    dict_get (modified registered) (_key s) = Some Snapshot /\
    forall other,
      other <> _key s ->
      dict_get (modified registered) other = dict_get (modified config) other.
Proof.
  intros Hr Hs Hcfg Hin.
  pose proof (reachable_inv _ Hr) as Hinv.
  destruct (setattr_ok _ _ _ _ value Hinv Hs Hin) as (config' & Hcfg' & Hset).
  assert (config' = config) as -> by congruence.
  pose proof (stored_frame s) as (_ & Hk & _). rewrite Hs in Hk. simpl in Hk.
  exists (after_set s1 config (stamped s d key value)), (pending config (_key s)).
  split; [exact Hset|].
  split; [now rewrite after_set_config, after_set_cache, Hk|].
  split; [reflexivity|]. split; [reflexivity|].
  split; [apply dict_get_set_same|].
  intros other Hother. apply dict_get_set_other. now apply String.eqb_neq.
Qed.

(** ** Methods on a record that is not bound *)




(** ** More on the quest slots *)

Lemma py_index_firstn (l : list pyval) (n i : nat) :
  (i < n)%nat -> py_index (firstn n l) i = py_index l i.
Proof.
  intros Hi. unfold py_index. now rewrite nth_error_firstn, (proj2 (Nat.ltb_lt i n) Hi).
Qed.

(** X16. [write_quests] looks at the first six items only: a longer list
    is written as its first six items are, without an error. *)
Theorem write_quests_truncates quests s :
  write_quests quests s = write_quests (firstn 6 quests) s.
Proof.
  unfold write_quests, write_slot.
  rewrite <- (firstn_map quest_name 6 quests).
  now rewrite !py_index_firstn by lia.
Qed.

(** ** The helpers of the counters *)

Lemma counter_in_schema s attr :
  __class__ s = StoredCounter \/ __class__ s = StoredDailyActivity ->
  In attr ["current"; "total"] ->
  In attr (dict_keys (_attrs s)).
Proof.
  intros Hc Hattr. unfold _attrs. apply dict_mem_In.
  destruct Hc as [Hc | Hc]; rewrite Hc;
    repeat (destruct Hattr as [<- | Hattr]; [reflexivity|]);
    destruct Hattr.
Qed.

Lemma reachable_stored s d s1 :
  reachable s -> _stored s = (Ok d, s1) -> reachable s1.
Proof.
  intros (c & key & Hr) Hs. exists c, key.
  replace s1 with (snd (_stored s)) by now rewrite Hs.
  now apply reach_stored.
Qed.

(** Two attribute reads in a row see the same snapshot. *)
Lemma read_twice s d s1 a b va vb :
  reachable s -> _stored s = (Ok d, s1) ->
  In a (dict_keys (_attrs s)) -> In b (dict_keys (_attrs s)) ->
  dict_get d a = Some va -> dict_get d b = Some vb ->
  __getattribute__ a s = (Ok va, s1) /\
  __getattribute__ b s1 = (Ok vb, s1).
Proof.
  intros Hr Hs Ha Hb Hva Hvb.
  pose proof (reachable_inv _ Hr) as Hinv.
  pose proof (reachable_stored _ _ _ Hr Hs) as Hr1.
  pose proof (stored_again _ _ _ Hinv Hs) as Hs1.
  pose proof (stored_frame s) as (Hc & _). rewrite Hs in Hc. simpl in Hc.
  split.
  - destruct (getattribute_ok _ _ _ a Hinv Hs Ha) as (v & Hv & Hget).
    congruence.
  - destruct (getattribute_ok _ _ _ b (reachable_inv _ Hr1) Hs1)
      as (v & Hv & Hget).
    + unfold _attrs in *. now rewrite Hc.
    + congruence.
Qed.

Lemma helpers_of_snapshot s d s1 current total :
  reachable s ->
  __class__ s = StoredCounter \/ __class__ s = StoredDailyActivity ->
  _stored s = (Ok d, s1) ->
  dict_get d "current" = Some current ->
  dict_get d "total" = Some total ->
  to_counter s
  = (Ok (py_format current ++ "/" ++ py_format total)%string, s1) /\
  is_full s = (py_ge current total, s1) /\
  get_remain s = (py_sub total current, s1).
Proof.
  intros Hr Hc Hs Hcur Htot.
  assert (Hin : forall attr, In attr ["current"; "total"] ->
                             In attr (dict_keys (_attrs s)))
    by (intros attr; now apply counter_in_schema).
  destruct (read_twice _ _ _ "current" "total" current total Hr Hs)
    as (H1 & H2);
    [apply Hin; simpl; logic | apply Hin; simpl; logic
     | exact Hcur | exact Htot |].
  destruct (read_twice _ _ _ "total" "current" total current Hr Hs)
    as (H3 & H4);
    [apply Hin; simpl; logic | apply Hin; simpl; logic
     | exact Htot | exact Hcur |].
  unfold to_counter, is_full, get_remain, bind, lift, ret.
  rewrite H1, H2, H3, H4. now repeat split.
Qed.

(** X17. The helpers of a counter answer from one snapshot: on a
    StoredCounter or StoredDailyActivity whose snapshot reads with
    [current] and [total] in it, [to_counter] is the two formatted values
    around a slash, [is_full] is [current >= total] and [get_remain] is
    [total - current], and the state is left as the read of the snapshot
    leaves it.  On integers [get_remain] is negative once [current] is past
    [total], where [is_full] is true.  On a StoredDailyActivity [total] is
    500. *)
Theorem counter_helpers s d s1 current total :
  reachable s ->
  __class__ s = StoredCounter \/ __class__ s = StoredDailyActivity ->
  _stored s = (Ok d, s1) ->
  dict_get d "current" = Some current ->
  dict_get d "total" = Some total ->
  to_counter s
  = (Ok (py_format current ++ "/" ++ py_format total)%string, s1) /\
  is_full s = (py_ge current total, s1) /\
  get_remain s = (py_sub total current, s1) /\
  (forall c t,
      current = PyInt c -> total = PyInt t ->
      fst (to_counter s) = Ok (py_str_int c ++ "/" ++ py_str_int t)%string /\
      fst (is_full s) = Ok (t <=? c) /\
      fst (get_remain s) = Ok (PyInt (t - c)) /\
      (t < c -> fst (is_full s) = Ok true /\
                exists r, fst (get_remain s) = Ok (PyInt r) /\ r < 0)) /\
  (__class__ s = StoredDailyActivity -> total = PyInt 500).
Proof using Type py_ge_int py_sub_int py_format_int.
  intros Hr Hc Hs Hcur Htot.
  destruct (helpers_of_snapshot _ _ _ _ _ Hr Hc Hs Hcur Htot)
    as (H1 & H2 & H3).
  split; [exact H1|]. split; [exact H2|]. split; [exact H3|].
  split.
  - intros c t -> ->. rewrite H1, H2, H3. simpl.
    rewrite !py_format_int, py_ge_int, py_sub_int.
    split; [reflexivity|]. split; [reflexivity|]. split; [reflexivity|].
    intros Hlt. split.
    + f_equal. apply Z.leb_le. lia.
    + exists (t - c). split; [reflexivity | lia].
  - intros Hda.
    destruct (stored_ok _ _ _ (reachable_inv _ Hr) Hs) as (_ & _ & _ & H500).
    specialize (H500 Hda). congruence.
Qed.

Lemma counter_set_spec s d s1 current total :
  inv s -> _stored s = (Ok d, s1) ->
  __class__ s = StoredCounter ->
  exists s2 d2,
    StoredCounter_set current total s = (Ok tt, s2) /\
    __class__ s2 = StoredCounter /\
    _stored_cache s2 = Some d2 /\
    dict_get d2 "current" = Some current /\
    dict_get d2 "total" = Some total /\
    forall item,
      item <> "current" -> item <> "total" -> item <> "time" ->
      dict_get d2 item = dict_get d item.
Proof using Type multi_set_enter_data.
  intros Hinv Hs Hc.
  destruct (stored_ok _ _ _ Hinv Hs) as (_ & _ & Hb & _).
  destruct (_config s) as [config|] eqn:Hcfg; [|now elim Hb].
  pose proof (stored_inside_scope _ _ _ _ Hcfg Hs) as Hs'.
  set (sa := set_config s (snd (multi_set_enter config))) in *.
  assert (Hinva : inv sa) by now apply inv_set_config.
  assert (Hca : __class__ sa = StoredCounter) by exact Hc.
  destruct (setattr_ok _ _ _ "current" current Hinva Hs')
    as (config1 & _ & Hset1);
    [apply counter_in_schema; [now left | simpl; logic]|].
  set (d1 := stamped sa d "current" current) in *.
  set (sb := after_set _ config1 d1) in *.
  assert (Hinvb : inv sb).
  { pose proof (stable_setattr "current" current sa) as (_ & _ & _ & H).
    rewrite Hset1 in H. now apply H. }
  assert (Hcb : __class__ sb = StoredCounter).
  { pose proof (stored_frame s) as (Hc1 & _). rewrite Hs in Hc1.
    unfold sb. rewrite after_set_class. simpl in *. congruence. }
  assert (Hsb : _stored sb = (Ok d1, sb))
    by (apply stored_cached;
        [apply after_set_cache | rewrite Hcb; discriminate]).
  destruct (setattr_ok _ _ _ "total" total Hinvb Hsb)
    as (config2 & _ & Hset2);
    [apply counter_in_schema; [now left | simpl; logic]|].
  set (d2 := stamped sb d1 "total" total) in *.
  assert (Hbody : (__setattr__ "current" current ;;
                   __setattr__ "total" total) sa
                  = (Ok tt, after_set sb config2 d2))
    by (unfold bind; now rewrite Hset1, Hset2).
  destruct (with_multi_set_result _ _ _ _ _ Hcfg Hbody)
    as (s2 & Hw & Hcache2 & Hc2).
  rewrite after_set_cache in Hcache2. rewrite after_set_class in Hc2.
  exists s2, d2.
  split; [exact Hw|]. split; [congruence|]. split; [exact Hcache2|].
  split.
  { unfold d2. rewrite stamped_get_other by reflexivity.
    apply stamped_get_same. }
  split; [apply stamped_get_same|].
  intros item H1 H2 H3. unfold d2, d1.
  rewrite !stamped_get_other; try reflexivity; now apply String.eqb_neq.
Qed.

(** X18. [StoredCounter.set(current, total)] on a StoredCounter whose
    snapshot reads succeeds; afterwards the attributes read back as given
    and the helpers answer from them: with integers, [is_full] is
    [current >= total], [get_remain] is [total - current] and [to_counter]
    is the text [current/total].  The other attributes than [time] keep the
    value of the snapshot before. *)
Theorem counter_set_then_helpers s d s1 c t :
  reachable s ->
  __class__ s = StoredCounter ->
  _stored s = (Ok d, s1) ->
  exists s2 d2,
    StoredCounter_set (PyInt c) (PyInt t) s = (Ok tt, s2) /\
    _stored s2 = (Ok d2, s2) /\
    __getattribute__ "current" s2 = (Ok (PyInt c), s2) /\
    __getattribute__ "total" s2 = (Ok (PyInt t), s2) /\
    is_full s2 = (Ok (t <=? c), s2) /\
    get_remain s2 = (Ok (PyInt (t - c)), s2) /\
    to_counter s2 = (Ok (py_str_int c ++ "/" ++ py_str_int t)%string, s2) /\
    forall item,
      item <> "current" -> item <> "total" -> item <> "time" ->
      dict_get d2 item = dict_get d item.
Proof using Type multi_set_enter_data py_ge_int py_sub_int py_format_int.
  intros Hr Hc Hs.
  destruct (counter_set_spec _ _ _ (PyInt c) (PyInt t) (reachable_inv _ Hr)
              Hs Hc)
    as (s2 & d2 & Hset & Hc2 & Hcache & Hcur & Htot & Hrest).
  assert (Hr2 : reachable s2).
  { destruct Hr as (cl & key & Hr). exists cl, key.
    replace s2 with (snd (StoredCounter_set (PyInt c) (PyInt t) s))
      by now rewrite Hset.
    now apply reach_counter_set. }
  assert (Hs2 : _stored s2 = (Ok d2, s2))
    by (apply stored_cached; [exact Hcache | rewrite Hc2; discriminate]).
  destruct (helpers_of_snapshot _ _ _ _ _ Hr2 (or_introl Hc2) Hs2 Hcur Htot)
    as (H1 & H2 & H3).
  destruct (read_twice _ _ _ "current" "total" (PyInt c) (PyInt t) Hr2 Hs2)
    as (H4 & H5);
    [apply counter_in_schema; [now left | simpl; logic]
     | apply counter_in_schema; [now left | simpl; logic]
     | exact Hcur | exact Htot |].
  exists s2, d2.
  split; [exact Hset|]. split; [exact Hs2|].
  split; [exact H4|]. split; [exact H5|].
  split; [now rewrite H2, py_ge_int|].
  split; [now rewrite H3, py_sub_int|].
  split; [now rewrite H1, !py_format_int|].
  exact Hrest.
Qed.

(** ** Expiry *)

Lemma expired_at_0400 s d s1 v :
  reachable s ->
  In (__class__ s)
     [StoredExpiredAt0400; StoredDailyActivity; StoredDaily;
      StoredDungeonDouble] ->
  _stored s = (Ok d, s1) ->
  dict_get d "time" = Some v ->
  is_expired s
  = match py_lt_datetime v (get_server_last_update "04:00" (ticks s)) with
    | Ok expired =>
        (Ok expired, tick s1,
         [(_name s, PyDict d);
          ((_name s ++ " expired")%string, PyBool expired)])
    | Raise e => (Raise e, tick s1, [(_name s, PyDict d)])
    end.
Proof.
  intros Hr Hc Hs Hv.
  assert (Hd : is_expired s = StoredExpiredAt0400_is_expired s).
  { unfold is_expired.
    repeat (destruct Hc as [<- | Hc]; [reflexivity|]). destruct Hc. }
  rewrite Hd. unfold StoredExpiredAt0400_is_expired, show. rewrite Hs.
  pose proof (reachable_inv _ Hr) as Hinv.
  pose proof (reachable_stored _ _ _ Hr Hs) as Hr1.
  pose proof (stored_again _ _ _ Hinv Hs) as Hs1.
  pose proof (stored_frame s) as (_ & _ & _ & _ & Ht).
  rewrite Hs in Ht. simpl in Ht.
  destruct (getattribute_ok _ _ _ "time" (reachable_inv _ Hr1) Hs1
              (time_in_schema s1)) as (v' & Hv' & Hget).
  assert (v' = v) as -> by congruence.
  rewrite Hget, Ht.
  now destruct (py_lt_datetime v _).
Qed.



(** X21. Expiry after a write: once any attribute but [time] of a record
    that expires at 04:00 has been written, [is_expired] compares the
    stamp of the write, the clock reading without its microseconds, with
    the last server update at 04:00. *)
Theorem is_expired_after_write s d s1 key value :
  reachable s ->
  In (__class__ s)
     [StoredExpiredAt0400; StoredDailyActivity; StoredDaily;
      StoredDungeonDouble] ->
  _stored s = (Ok d, s1) ->
  In key (dict_keys (_attrs s)) ->
  key <> "time" ->
  exists s2,
    __setattr__ key value s = (Ok tt, s2) /\
    ticks s2 = S (ticks s) /\
    fst (fst (is_expired s2))
    = Ok (replace_microsecond_0 (datetime_now (ticks s))
          <? get_server_last_update "04:00" (ticks s2)).
Proof.
  intros Hr Hc Hs Hin Hkey.
  pose proof (reachable_inv _ Hr) as Hinv.
  destruct (setattr_ok _ _ _ _ value Hinv Hs Hin) as (config & Hcfg & Hset).
  pose proof (stored_frame s) as (Hc1 & _ & _ & _ & Ht1).
  rewrite Hs in Hc1, Ht1. simpl in Hc1, Ht1.
  set (d2 := stamped s d key value) in *.
  set (s2 := after_set s1 config d2) in *.
  assert (Hr2 : reachable s2).
  { destruct Hr as (cl & k & Hr). exists cl, k.
    replace s2 with (snd (__setattr__ key value s)) by now rewrite Hset.
    now apply reach_setattr. }
  assert (Hc2 : __class__ s2 = __class__ s)
    by (unfold s2; now rewrite after_set_class).
  assert (Ht2 : ticks s2 = S (ticks s)).
  { unfold s2, after_set. rewrite <- Ht1.
    destruct (auto_update config); reflexivity. }
  assert (Htime : dict_get d2 "time"
                  = Some (PyDatetime
                            (replace_microsecond_0 (datetime_now (ticks s))))).
  { apply stamped_get_time. apply String.eqb_neq. congruence. }
  assert (Hs2 : exists d3 s3,
             _stored s2 = (Ok d3, s3) /\
             dict_get d3 "time"
             = Some (PyDatetime
                       (replace_microsecond_0 (datetime_now (ticks s))))).
  { destruct (__class__ s) eqn:Hcs.
    5: { exists (dict_set d2 "total" (PyInt 500)),
           (set_cache s2 (dict_set d2 "total" (PyInt 500))).
         split.
         - apply stored_cached_activity;
             [apply after_set_cache | congruence].
         - now rewrite dict_get_set_other by reflexivity. }
    all: exists d2, s2; split; [|exact Htime];
      apply stored_cached;
      [apply after_set_cache | rewrite Hc2; discriminate]. }
  destruct Hs2 as (d3 & s3 & Hs2 & Htime3).
  exists s2. split; [exact Hset|]. split; [exact Ht2|].
  rewrite (expired_at_0400 _ _ _ _ Hr2 (eq_ind_r (fun c => In c _) Hc Hc2)
             Hs2 Htime3).
  reflexivity.
Qed.

(** ** Reading the quest slots *)





End Records.

(** * The theorems at the examples *)



(** C4, as claimed, at the [total] of a daily activity: 7 is an integer as
    the default 0 is, [total] is a schema attribute, and after
    [total = 7] the attribute reads 500. *)
Lemma set_then_get_total_counterexample :
  isinstance_type_of (PyInt 7) (PyInt 0) = true /\
  dict_get (_attrs example_DEFAULT_TIME example_activity) "total"
  = Some (PyInt 0) /\
  fst ((__setattr__ example_DEFAULT_TIME example_datetime_now
          example_fromisoformat example_update "total" (PyInt 7) ;;
        __getattribute__ example_DEFAULT_TIME example_fromisoformat "total")
         example_activity)
  = Ok (PyInt 500) /\
  fst ((__setattr__ example_DEFAULT_TIME example_datetime_now
          example_fromisoformat example_update "total" (PyInt 7) ;;
        __getattribute__ example_DEFAULT_TIME example_fromisoformat "total")
         example_activity)
  <> Ok (PyInt 7).
Proof.
  split; [reflexivity|]. split; [reflexivity|].
  split; [reflexivity|]. vm_compute. discriminate.
Qed.

(** C4, as amended, at the [value] of an integer record. *)
Lemma set_then_get_witness :
  exists s2,
    __setattr__ example_DEFAULT_TIME example_datetime_now
      example_fromisoformat example_update "value" (PyInt 8) example_int
    = (Ok tt, s2) /\
    fst (__getattribute__ example_DEFAULT_TIME example_fromisoformat "value" s2)
    = Ok (PyInt 8).
Proof.
  destruct (set_then_get example_DEFAULT_TIME example_datetime_now
              example_time_time example_fromisoformat example_find
              example_update bool example_multi_set_enter
              example_multi_set_exit
              example_int
              [("time", PyDatetime 1700000000000000); ("value", PyInt 3)]
              (snd (_stored example_DEFAULT_TIME example_fromisoformat
                      example_int))
              "value" (PyInt 8))
    as (s2 & Hset & _ & Hget).
  - exists StoredInt, "Int.Value". apply reach_bind, reach_start.
  - reflexivity.
  - vm_compute. tauto.
  - exists s2. split; [exact Hset|].
    apply Hget. intros [Hc _]. discriminate Hc.
Defined.


(** C9 at the [value] of an integer record: [time] becomes the clock
    reading without its microseconds. *)
Lemma setattr_time_stamp_witness :
  exists s2 d2,
    __setattr__ example_DEFAULT_TIME example_datetime_now
      example_fromisoformat example_update "value" (PyInt 8) example_int
    = (Ok tt, s2) /\
    _stored_cache s2 = Some d2 /\
    dict_get d2 "time" = Some (PyDatetime 1700000100000000).
Proof.
  destruct (setattr_time_stamp example_DEFAULT_TIME example_datetime_now
              example_time_time example_fromisoformat example_find
              example_update bool example_multi_set_enter
              example_multi_set_exit
              example_int
              [("time", PyDatetime 1700000000000000); ("value", PyInt 3)]
              (snd (_stored example_DEFAULT_TIME example_fromisoformat
                      example_int))
              "value" (PyInt 8))
    as (s2 & d2 & Hset & Hcache & Hother & _).
  - exists StoredInt, "Int.Value". apply reach_bind, reach_start.
  - reflexivity.
  - vm_compute. tauto.
  - exists s2, d2. split; [exact Hset|]. split; [exact Hcache|].
    apply Hother. discriminate.
Defined.

(** C6 at a daily activity whose persisted [total] is 9999. *)
Lemma daily_activity_total_witness :
  fst (__getattribute__ example_DEFAULT_TIME example_fromisoformat "total"
         example_activity)
  = Ok (PyInt 500) /\
  exists s2,
    StoredDailyActivity_set example_DEFAULT_TIME example_datetime_now
      example_fromisoformat example_update bool example_multi_set_enter
      example_multi_set_exit (PyInt 77) example_activity
    = (Ok tt, s2) /\
    fst (__getattribute__ example_DEFAULT_TIME example_fromisoformat
           "current" s2)
    = Ok (PyInt 77) /\
    fst (__getattribute__ example_DEFAULT_TIME example_fromisoformat
           "total" s2)
    = Ok (PyInt 500).
Proof.
  destruct (daily_activity_total example_DEFAULT_TIME example_datetime_now
              example_time_time example_fromisoformat example_find
              example_update bool example_multi_set_enter
              example_multi_set_exit (fun config => eq_refl)
              example_activity
              [("time", PyDatetime 1700000000000000);
               ("current", PyInt 120); ("total", PyInt 500)]
              (snd (_stored example_DEFAULT_TIME example_fromisoformat
                      example_activity)))
    as (_ & Hget & Hset).
  - exists StoredDailyActivity, "Daily.Activity". apply reach_bind, reach_start.
  - reflexivity.
  - reflexivity.
  - split; [exact Hget|].
    destruct (Hset (PyInt 77)) as (s2 & d2 & Hs2 & _ & _ & _ & Hcur & Htot).
    exists s2. split; [exact Hs2|]. split; [exact Hcur | exact Htot].
Defined.

(** C7 at an empty daily record and two known quests. *)
Lemma write_then_load_quests_witness :
  exists s2,
    write_quests example_DEFAULT_TIME example_datetime_now
      example_fromisoformat example_update bool example_multi_set_enter
      example_multi_set_exit [PyQuest Quest_A; PyQuest Quest_B] example_daily
    = (Ok tt, s2) /\
    fst (load_quests example_DEFAULT_TIME example_fromisoformat example_find s2)
    = Ok [Quest_A; Quest_B].
Proof.
  destruct (write_then_load_quests example_DEFAULT_TIME example_datetime_now
              example_time_time example_fromisoformat example_find
              example_update bool example_multi_set_enter
              example_multi_set_exit (fun config => eq_refl)
              example_daily
              [("time", PyDatetime example_DEFAULT_TIME);
               ("quest1", PyStr ""); ("quest2", PyStr "");
               ("quest3", PyStr ""); ("quest4", PyStr "");
               ("quest5", PyStr ""); ("quest6", PyStr "")]
              (snd (_stored example_DEFAULT_TIME example_fromisoformat
                      example_daily))
              [PyQuest Quest_A; PyQuest Quest_B])
    as (s2 & d2 & Hwrite & _ & _ & _ & _ & _ & _ & Hload).
  - exists StoredDaily, "Daily.Quest". apply reach_bind, reach_start.
  - reflexivity.
  - reflexivity.
  - simpl. lia.
  - exists s2. split; [exact Hwrite|].
    apply (Hload Quest_A Quest_B); try reflexivity; discriminate.
Defined.


(** ** The record layer at the examples *)


(** X4 at an integer record: bound to another config after the first
    read, it still answers with the snapshot of the first. *)
Lemma snapshot_read_once_witness :
  _stored example_DEFAULT_TIME example_fromisoformat (_bind corrupt_time_config (snd (_stored example_DEFAULT_TIME example_fromisoformat example_int)))
  = (Ok [("time", PyDatetime 1700000000000000); ("value", PyInt 3)],
     _bind corrupt_time_config (snd (_stored example_DEFAULT_TIME example_fromisoformat example_int))).
Proof.
  destruct (snapshot_read_once example_DEFAULT_TIME example_datetime_now
              example_time_time example_fromisoformat example_find
              example_update bool example_multi_set_enter
              example_multi_set_exit
              example_int
              [("time", PyDatetime 1700000000000000); ("value", PyInt 3)]
              (snd (_stored example_DEFAULT_TIME example_fromisoformat example_int)))
    as (_ & Hbind).
  - exists StoredInt, "Int.Value". apply reach_bind, reach_start.
  - reflexivity.
  - apply Hbind.
Defined.

(** X5 at a daily activity: the persisted string becomes a datetime, the
    persisted total gives way to 500, and nothing is logged. *)
Lemma hydration_exact_witness :
  exists s1,
    _stored example_DEFAULT_TIME example_fromisoformat example_activity
    = (Ok [("time", PyDatetime 1700000000000000); ("current", PyInt 120);
           ("total", PyInt 500)], s1) /\
    log s1 = [].
Proof.
  destruct (hydration_exact example_DEFAULT_TIME example_fromisoformat
              example_activity example_config
              [("time", PyStr "2023-11-14 22:13:20"); ("current", PyInt 120);
               ("total", PyInt 9999)])
    as (s1 & Hs & Hlog).
  - reflexivity.
  - reflexivity.
  - reflexivity.
  - intros v Hv. right. exists "2023-11-14 22:13:20".
    vm_compute in Hv. congruence.
  - exists s1. split; [exact Hs | exact Hlog].
Defined.

(** X6 at the daily quests, whose node is empty. *)
Lemma hydration_of_empty_node_witness :
  exists s1,
    _stored example_DEFAULT_TIME example_fromisoformat example_daily
    = (Ok [("time", PyDatetime 1577836800000000); ("quest1", PyStr "");
           ("quest2", PyStr ""); ("quest3", PyStr ""); ("quest4", PyStr "");
           ("quest5", PyStr ""); ("quest6", PyStr "")], s1) /\
    log s1 = [].
Proof.
  destruct (hydration_of_empty_node example_DEFAULT_TIME example_fromisoformat
              example_daily example_config)
    as (s1 & Hs & Hlog).
  - reflexivity.
  - reflexivity.
  - reflexivity.
  - exists s1. split; [exact Hs | exact Hlog].
Defined.

(** X7 at an integer record whose node is a snapshot. *)
Lemma hydration_round_trip_witness :
  exists s1,
    _stored example_DEFAULT_TIME example_fromisoformat (_bind example_snapshot_config (__init__ StoredInt "Int.Value"))
    = (Ok [("time", PyDatetime 1700000000000000); ("value", PyInt 3)], s1) /\
    log s1 = [].
Proof.
  destruct (hydration_round_trip example_DEFAULT_TIME example_fromisoformat
              (_bind example_snapshot_config (__init__ StoredInt "Int.Value"))
              example_snapshot_config
              [("time", PyDatetime 1700000000000000); ("value", PyInt 3)])
    as (s1 & Hs & Hlog).
  - reflexivity.
  - reflexivity.
  - reflexivity.
  - reflexivity.
  - intros attr default v Hin Hget. vm_compute in Hin.
    destruct Hin as [H | [H | []]]; inversion H; subst;
      vm_compute in Hget; inversion Hget; reflexivity.
  - exists s1. split; [exact Hs | exact Hlog].
Defined.

(** X8 at a record whose key leads to the integer 3. *)
Lemma hydration_failure_witness :
  _stored example_DEFAULT_TIME example_fromisoformat (_bind example_config (__init__ StoredInt "Int.Value.value"))
  = (Raise AttributeError,
     _bind example_config (__init__ StoredInt "Int.Value.value")).
Proof.
  destruct (hydration_failure example_DEFAULT_TIME example_fromisoformat
              (_bind example_config (__init__ StoredInt "Int.Value.value"))
              example_config eq_refl eq_refl)
    as [Hnode _].
  apply Hnode. intros m Hm. vm_compute in Hm. discriminate Hm.
Defined.



(** X11 at an integer record read 100 seconds after the write. *)
Lemma readable_time_after_write_witness :
  exists s2,
    __setattr__ example_DEFAULT_TIME example_datetime_now
      example_fromisoformat example_update "value" (PyInt 8) example_int = (Ok tt, s2) /\
    fst (readable_time example_DEFAULT_TIME example_late_time_time
           example_fromisoformat s2)
    = Ok ("", "TimeError").
Proof.
  destruct (readable_time_after_write example_DEFAULT_TIME
              example_datetime_now example_late_time_time
              example_fromisoformat example_find example_update bool
              example_multi_set_enter example_multi_set_exit
              example_int
              [("time", PyDatetime 1700000000000000); ("value", PyInt 3)]
              (snd (_stored example_DEFAULT_TIME example_fromisoformat example_int))
              "value" (PyInt 8))
    as (s2 & Hset & _ & Hlate).
  - exists StoredInt, "Int.Value". apply reach_bind, reach_start.
  - reflexivity.
  - vm_compute. tauto.
  - discriminate.
  - exists s2. split; [exact Hset|].
    apply Hlate. vm_compute. reflexivity.
Defined.

(** X12 at an integer record whose [time] is set to a string. *)
Lemma readable_time_needs_datetime_witness :
  exists s2,
    __setattr__ example_DEFAULT_TIME example_datetime_now
      example_fromisoformat example_update "time" (PyStr "soon") example_int = (Ok tt, s2) /\
    fst (readable_time example_DEFAULT_TIME example_time_time
           example_fromisoformat s2)
    = Raise AttributeError.
Proof.
  apply (readable_time_needs_datetime example_DEFAULT_TIME example_datetime_now
              example_time_time example_fromisoformat example_find
              example_update bool example_multi_set_enter
              example_multi_set_exit
           example_int
           [("time", PyDatetime 1700000000000000); ("value", PyInt 3)]
           (snd (_stored example_DEFAULT_TIME example_fromisoformat example_int))
           (PyStr "soon")).
  - exists StoredInt, "Int.Value". apply reach_bind, reach_start.
  - reflexivity.
  - reflexivity.
Defined.

(** X13 at the daily quests: the second slot after the first is written. *)
Lemma setattr_leaves_others_witness :
  exists s2,
    __setattr__ example_DEFAULT_TIME example_datetime_now
      example_fromisoformat example_update "quest1" (PyStr "Quest_A") example_daily = (Ok tt, s2) /\
    fst (__getattribute__ example_DEFAULT_TIME example_fromisoformat "quest2" s2) = Ok (PyStr "").
Proof.
  apply (setattr_leaves_others example_DEFAULT_TIME example_datetime_now
              example_time_time example_fromisoformat example_find
              example_update bool example_multi_set_enter
              example_multi_set_exit
           example_daily
           [("time", PyDatetime 1577836800000000); ("quest1", PyStr "");
            ("quest2", PyStr ""); ("quest3", PyStr ""); ("quest4", PyStr "");
            ("quest5", PyStr ""); ("quest6", PyStr "")]
           (snd (_stored example_DEFAULT_TIME example_fromisoformat example_daily))
           "quest1" (PyStr "Quest_A") "quest2" (PyStr "")).
  - exists StoredDaily, "Daily.Quest". apply reach_bind, reach_start.
  - reflexivity.
  - vm_compute. tauto.
  - discriminate.
  - discriminate.
  - reflexivity.
Defined.

(** X14 at an integer record of a config with a value pending under
    another key and no flush of its own. *)
Lemma setattr_registers_own_key_witness :
  exists s2 registered,
    __setattr__ example_DEFAULT_TIME example_datetime_now
      example_fromisoformat example_update "value" (PyInt 8) example_pending_int = (Ok tt, s2) /\
    _config s2 = Some registered /\
    dict_get (modified registered) "Int.Value" = Some Snapshot /\
    dict_get (modified registered) "Other.Key" = Some (Other (PyInt 1)).
Proof.
  destruct (setattr_registers_own_key example_DEFAULT_TIME example_datetime_now
              example_time_time example_fromisoformat example_find
              example_update bool example_multi_set_enter
              example_multi_set_exit
              example_pending_int
              [("time", PyDatetime 1700000000000000); ("value", PyInt 3)]
              (snd (_stored example_DEFAULT_TIME example_fromisoformat example_pending_int))
              example_pending_config "value" (PyInt 8))
    as (s2 & registered & Hset & Hcfg & _ & _ & Hown & Hothers).
  - exists StoredInt, "Int.Value". apply reach_bind, reach_start.
  - reflexivity.
  - reflexivity.
  - vm_compute. tauto.
  - exists s2, registered.
    split; [exact Hset|]. split; [exact Hcfg|]. split; [exact Hown|].
    apply (Hothers "Other.Key"). vm_compute. discriminate.
Defined.


(** X17 at a daily activity with 120 of 500. *)
Lemma counter_helpers_witness :
  fst (to_counter example_DEFAULT_TIME example_fromisoformat
         example_py_format example_activity) = Ok "120/500" /\
  fst (is_full example_DEFAULT_TIME example_fromisoformat example_py_ge
         example_activity) = Ok false /\
  fst (get_remain example_DEFAULT_TIME example_fromisoformat example_py_sub
         example_activity) = Ok (PyInt 380).
Proof.
  destruct (counter_helpers example_DEFAULT_TIME example_datetime_now
              example_time_time example_fromisoformat example_find
              example_update bool example_multi_set_enter
              example_multi_set_exit
              example_py_ge example_py_sub example_py_format
              (fun a b => eq_refl) (fun a b => eq_refl) (fun a => eq_refl)
              example_activity
              [("time", PyDatetime 1700000000000000); ("current", PyInt 120);
               ("total", PyInt 500)]
              (snd (_stored example_DEFAULT_TIME example_fromisoformat example_activity))
              (PyInt 120) (PyInt 500))
    as (_ & _ & _ & Hint & _).
  - exists StoredDailyActivity, "Daily.Activity".
    apply reach_bind, reach_start.
  - right. reflexivity.
  - reflexivity.
  - reflexivity.
  - reflexivity.
  - destruct (Hint 120 500 eq_refl eq_refl) as (H1 & H2 & H3 & _).
    split; [exact H1|]. split; [exact H2 | exact H3].
Defined.

(** X18 at a counter set to 3 of 10. *)
Lemma counter_set_then_helpers_witness :
  exists s2,
    StoredCounter_set example_DEFAULT_TIME example_datetime_now
      example_fromisoformat example_update bool example_multi_set_enter
      example_multi_set_exit (PyInt 3) (PyInt 10) example_counter
    = (Ok tt, s2) /\
    is_full example_DEFAULT_TIME example_fromisoformat example_py_ge s2
    = (Ok false, s2) /\
    get_remain example_DEFAULT_TIME example_fromisoformat example_py_sub s2
    = (Ok (PyInt 7), s2) /\
    to_counter example_DEFAULT_TIME example_fromisoformat example_py_format s2
    = (Ok "3/10", s2).
Proof.
  destruct (counter_set_then_helpers example_DEFAULT_TIME example_datetime_now
              example_time_time example_fromisoformat example_find
              example_update bool example_multi_set_enter
              example_multi_set_exit
              example_py_ge example_py_sub example_py_format
              (fun config => eq_refl)
              (fun a b => eq_refl) (fun a b => eq_refl) (fun a => eq_refl)
              example_counter
              [("time", PyDatetime 1577836800000000); ("current", PyInt 0);
               ("total", PyInt 0)]
              (snd (_stored example_DEFAULT_TIME example_fromisoformat example_counter))
              3 10)
    as (s2 & d2 & Hset & _ & _ & _ & Hfull & Hremain & Htext & _).
  - exists StoredCounter, "Counter.Value". apply reach_bind, reach_start.
  - reflexivity.
  - reflexivity.
  - exists s2. split; [exact Hset|]. split; [exact Hfull|].
    split; [exact Hremain | exact Htext].
Defined.



(** X21 at the daily quests written a minute after the boundary. *)
Lemma is_expired_after_write_witness :
  exists s2,
    __setattr__ example_DEFAULT_TIME example_datetime_now
      example_fromisoformat example_update "quest1" (PyStr "Quest_A") example_daily = (Ok tt, s2) /\
    fst (fst (is_expired example_DEFAULT_TIME example_fromisoformat
                example_get_server_last_update s2))
    = Ok false.
Proof.
  destruct (is_expired_after_write example_DEFAULT_TIME example_datetime_now
              example_time_time example_fromisoformat example_find
              example_update bool example_multi_set_enter
              example_multi_set_exit
              example_get_server_last_update example_daily
              [("time", PyDatetime 1577836800000000); ("quest1", PyStr "");
               ("quest2", PyStr ""); ("quest3", PyStr ""); ("quest4", PyStr "");
               ("quest5", PyStr ""); ("quest6", PyStr "")]
              (snd (_stored example_DEFAULT_TIME example_fromisoformat example_daily))
              "quest1" (PyStr "Quest_A"))
    as (s2 & Hset & _ & Hexpired).
  - exists StoredDaily, "Daily.Quest". apply reach_bind, reach_start.
  - simpl. tauto.
  - reflexivity.
  - vm_compute. tauto.
  - discriminate.
  - exists s2. split; [exact Hset | exact Hexpired].
Defined.

